(** * Technical indicators and composite rating of the stock dashboard

    A shallow embedding of [src/hooks/useStockData.ts]: the indicator
    library ([calculateRSI], [calculateSMA], [calculateEMA],
    [calculateMACD], [calculateBollingerBands]), the rule based scorer
    [generateAIAnalysis] and the prediction record built in
    [fetchStockData] / [generateFallbackStockData].

    Numbers.  A JavaScript [number] that is finite is a rational, so the
    embedding computes over [Q] with exact arithmetic: rounding of
    intermediate results is not modelled, and neither are [NaN] and the
    infinities.  Those can only arise here from a division by zero, and the
    only divisors of the source that can vanish are [period] (callers pass
    12, 14, 20, 26, 50, 200; the theorems ask for [1 <= period] where a
    division by it is reached) and [high52Week - low52Week], whose three
    outcomes are written out in [range_text].  Numeric equality of the
    source ([===] on numbers) is [Qeq], written [==].

    Lookback periods are counts, hence [nat].  [Math.random] is an explicit
    stream of draws threaded through a small state monad.  [Math.sqrt] is a
    parameter of [calculateBollingerBands].

    Module [Double] repeats the EMA and RSI loops over IEEE binary64, to
    evaluate single series with the rounding of the host as well.  The
    statements keep to what rounding preserves: guards, orders, selections
    and formulas in the operand order of the source.

    Around the engine the file also embeds the numeric part of the fetch
    layer (the quote arithmetic, the cleaning of the series, the average
    volume, the chart points and the 52-week extremes, where values that
    may be infinite live in [Ext.t]), the fallback generator
    [generateFallbackStockData], and the RSI and MACD signal helpers of
    [components/StockChart.tsx]. *)

From Stdlib Require Import String Ascii DecimalString.
From Stdlib Require Import QArith Qabs Qround ZArith List Lia Lqa Bool.
From Stdlib Require Import Floats.
Import ListNotations.
Open Scope Q_scope.

(** ** JavaScript numbers and arrays *)

Module JS.

(** [a > b], [a < b], [a >= b], [a <= b] on numbers. *)
Definition gt (a b : Q) : bool := negb (Qle_bool a b).
Definition lt (a b : Q) : bool := negb (Qle_bool b a).
Definition ge (a b : Q) : bool := Qle_bool b a.
Definition le (a b : Q) : bool := Qle_bool a b.

(** A lookback count used as a number. *)
Definition num (n : nat) : Q := inject_Z (Z.of_nat n).

(** [xs[xs.length - 1]]: [undefined] (here [None]) on the empty array. *)
Definition last_elem (xs : list Q) : option Q :=
  match xs with
  | [] => None
  | _ => nth_error xs (length xs - 1)
  end.

(** [v || d] for a possibly undefined number [v]: [undefined] and [0] are
    falsy, every other finite number is truthy. *)
Definition or_else (v : option Q) (d : Q) : Q :=
  match v with
  | None => d
  | Some x => if Qeq_bool x 0 then d else x
  end.

(** [xs[i]] where the surrounding guard keeps [i] in range (lemmas below
    state the ranges); the default is never observed there. *)
Definition at_index (xs : list Q) (i : nat) : Q := nth i xs 0.

(** [xs.slice(-n)]: the last [n] elements, all of them when the array is
    shorter, and the whole array for [n = 0] since [-0] is [0]. *)
Definition slice_last (xs : list Q) (n : nat) : list Q :=
  match n with
  | O => xs
  | _ => skipn (length xs - n) xs
  end.

(** [xs.reduce((sum, x) => sum + f(x), 0)]. *)
Definition reduce_sum (f : Q -> Q) (xs : list Q) : Q :=
  fold_left (fun sum x => sum + f x) xs 0.

(** [Math.round]: the nearest integer, ties towards plus infinity. *)
Definition round (x : Q) : Z := Qfloor (x + (1 # 2)).

(** [Math.min], [Math.max]. *)
Definition min (a b : Q) : Q := if Qle_bool a b then a else b.
Definition max (a b : Q) : Q := if Qle_bool a b then b else a.

End JS.

(** ** Indicator library *)

(** *** calculateRSI (lines 60-88) *)

(** Body of the first loop: [i] runs over [1 .. period]. *)
Definition rsi_seed_step (prices : list Q) (acc : Q * Q) (i : nat) : Q * Q :=
  let '(gains, losses) := acc in
  let change := JS.at_index prices i - JS.at_index prices (i - 1) in
  if JS.gt change 0 then (gains + change, losses)
  else (gains, losses + Qabs change).

(** Body of the second loop: [i] runs over [period + 1 .. length - 1]. *)
Definition rsi_smooth_step (prices : list Q) (period : nat)
    (acc : Q * Q) (i : nat) : Q * Q :=
  let '(avgGain, avgLoss) := acc in
  let change := JS.at_index prices i - JS.at_index prices (i - 1) in
  let gain := if JS.gt change 0 then change else 0 in
  let loss := if JS.lt change 0 then Qabs change else 0 in
  ((avgGain * (JS.num period - 1) + gain) / JS.num period,
   (avgLoss * (JS.num period - 1) + loss) / JS.num period).

(** The pair [(avgGain, avgLoss)] when the second loop has finished. *)
Definition rsi_averages (prices : list Q) (period : nat) : Q * Q :=
  let '(gains, losses) :=
    fold_left (rsi_seed_step prices) (seq 1 period) (0, 0) in
  let avgGain := gains / JS.num period in
  let avgLoss := losses / JS.num period in
  fold_left (rsi_smooth_step prices period)
    (seq (period + 1) (length prices - (period + 1))) (avgGain, avgLoss).

(** The divisor [avgLoss || 1]. *)
Definition rsi_divisor (avgLoss : Q) : Q := JS.or_else (Some avgLoss) 1.

(** The last two lines: [rs] and the returned value. *)
Definition rsi_of_averages (avgs : Q * Q) : Q :=
  let '(avgGain, avgLoss) := avgs in
  let rs := avgGain / rsi_divisor avgLoss in
  100 - 100 / (1 + rs).

Definition calculateRSI (prices : list Q) (period : nat) : Q :=
  if (length prices <? period + 1)%nat then 50
  else rsi_of_averages (rsi_averages prices period).

(** *** calculateSMA (lines 91-95) *)

Definition calculateSMA (prices : list Q) (period : nat) : Q :=
  if (length prices <? period)%nat then JS.or_else (JS.last_elem prices) 0
  else
    let slice := JS.slice_last prices period in
    JS.reduce_sum (fun price => price) slice / JS.num period.

(** *** calculateEMA (lines 137-148) *)

(** With [period = 0] and no price the source returns the [undefined] it
    reads at [prices[0]]; the embedding is meant for [1 <= period], where
    the guard leaves a non-empty array. *)

Definition ema_step (prices : list Q) (multiplier : Q) (ema : Q) (i : nat) : Q :=
  JS.at_index prices i * multiplier + ema * (1 - multiplier).

Definition calculateEMA (prices : list Q) (period : nat) : Q :=
  if (length prices <? period)%nat then JS.or_else (JS.last_elem prices) 0
  else
    let multiplier := 2 / (JS.num period + 1) in
    fold_left (ema_step prices multiplier)
      (seq 1 (length prices - 1)) (JS.at_index prices 0).

(** *** calculateMACD (lines 116-134) *)

Record MACD : Type := mkMACD {
  macd_value : Q;
  macd_signal : Q;
  macd_histogram : Q
}.

Definition calculateMACD (prices : list Q) : MACD :=
  if (length prices <? 26)%nat then mkMACD 0 0 0
  else
    let ema12 := calculateEMA prices 12 in
    let ema26 := calculateEMA prices 26 in
    let macdLine := ema12 - ema26 in
    let signalLine := macdLine * 0.9 in
    mkMACD macdLine signalLine (macdLine - signalLine).

(** The record is the all-zero one: every field is numerically zero. *)
Definition macd_all_zero (m : MACD) : Prop :=
  macd_value m == 0 /\ macd_signal m == 0 /\ macd_histogram m == 0.

(** *** calculateBollingerBands (lines 98-113) *)

Record Bollinger : Type := mkBollinger {
  bb_upper : Q;
  bb_middle : Q;
  bb_lower : Q
}.

Section BollingerBands.

(** [Math.sqrt] of the host.  Its result on a finite non-negative number
    is a finite number, hence a rational; the development relies on
    nothing but its sign. *)
Variable Math_sqrt : Q -> Q.

(** [slice.reduce((sum, price) => sum + Math.pow(price - sma, 2), 0) / period]:
    the population variance of the window around [sma]. *)
Definition window_variance (slice : list Q) (sma : Q) (period : nat) : Q :=
  JS.reduce_sum (fun price => (price - sma) ^ 2) slice / JS.num period.

Definition calculateBollingerBands
    (prices : list Q) (period : nat) (multiplier : Q) : Bollinger :=
  let sma := calculateSMA prices period in
  if (length prices <? period)%nat then
    mkBollinger (sma * 1.02) sma (sma * 0.98)
  else
    let slice := JS.slice_last prices period in
    let variance := window_variance slice sma period in
    let stdDev := Math_sqrt variance in
    mkBollinger (sma + stdDev * multiplier) sma (sma - stdDev * multiplier).

End BollingerBands.

(** The default arguments [period = 20], [multiplier = 2] and [period = 14]. *)
Definition calculateBollingerBands_default (Math_sqrt : Q -> Q)
    (prices : list Q) : Bollinger :=
  calculateBollingerBands Math_sqrt prices 20 2.

Definition calculateRSI_default (prices : list Q) : Q := calculateRSI prices 14.

(** ** Number formatting for the key factors *)

(** The decimal digits of a non-negative integer. *)
Definition digits_of (n : Z) : string :=
  NilZero.string_of_uint (N.to_uint (Z.to_N n)).

Fixpoint zeros (k : nat) : string :=
  match k with
  | O => EmptyString
  | S k' => String "0" (zeros k')
  end.

(** [x.toFixed(f)] for [|x| < 10^21] (above that the host switches to
    exponent notation, which no price reaches): the sign, then the integer
    [n] nearest to [|x| * 10^f] (the larger one on a tie) printed with a
    point before its last [f] digits. *)
Definition toFixed (x : Q) (f : nat) : string :=
  let s := if JS.lt x 0 then "-"%string else EmptyString in
  let n := Qfloor (Qabs x * inject_Z (10 ^ Z.of_nat f) + (1 # 2)) in
  let m := digits_of n in
  let k := String.length m in
  let m := if (k <=? f)%nat then append (zeros (f + 1 - k)) m else m in
  let k := String.length m in
  match f with
  | O => append s m
  | _ => append s (append (substring 0 (k - f) m)
                          (append "." (substring (k - f) f m)))
  end.

(** ** Composite rating engine: generateAIAnalysis (lines 151-216) *)

Inductive Rating : Type := StrongBuy | Buy | Hold | Sell | StrongSell.
Inductive RiskLevel : Type := Low | Medium | High.
Inductive Trend : Type := bullish | bearish | neutral.
Inductive SentimentLabel : Type :=
  VeryPositive | Positive | Neutral | Negative | VeryNegative.

Definition trend_text (t : Trend) : string :=
  match t with
  | bullish => "bullish"
  | bearish => "bearish"
  | neutral => "neutral"
  end.

(** The fields of [data] that the engine reads. *)
Record StockInput : Type := mkStockInput {
  currentPrice : Q;
  changePercent : Q;
  volume : Q;
  high52Week : Q;
  low52Week : Q
}.

Record TechnicalIndicators : Type := mkTechnicalIndicators {
  rsi : Q;
  macd : MACD;
  bollinger : Bollinger;
  sma20 : Q;
  sma50 : Q;
  sma200 : Q;
  ti_volume : Q;
  avgVolume : Q
}.

Record Sentiment : Type := mkSentiment {
  score : Q;
  label : SentimentLabel
}.

(** [technicalScore], [fundamentalScore] and [marketScore] are results of
    [Math.round], hence integers. *)
Record AIAnalysis : Type := mkAIAnalysis {
  overallRating : Rating;
  confidence : Q;
  riskLevel : RiskLevel;
  priceTarget : Q;
  keyFactors : list string;
  sentiment : Sentiment;
  technicalScore : Z;
  fundamentalScore : Z;
  marketScore : Z
}.

(** The running pair [(technicalScore, trend)] of the source, which starts
    at [(50, neutral)]. *)
Definition Scoring : Type := (Q * Trend)%type.

(** RSI analysis (lines 162-168). *)
Definition rsi_rule (rsi : Q) (st : Scoring) : Scoring :=
  let '(technicalScore, trend) := st in
  if JS.lt rsi 30 then (technicalScore + 20, bullish)
  else if JS.gt rsi 70 then (technicalScore - 20, bearish)
  else (technicalScore, trend).

(** The two chained comparisons of the moving average analysis. *)
Definition uptrend (price s20 s50 s200 : Q) : bool :=
  JS.gt price s20 && JS.gt s20 s50 && JS.gt s50 s200.

Definition downtrend (price s20 s50 s200 : Q) : bool :=
  JS.lt price s20 && JS.lt s20 s50 && JS.lt s50 s200.

(** Moving average analysis (lines 171-177). *)
Definition trend_rule (price s20 s50 s200 : Q) (st : Scoring) : Scoring :=
  let '(technicalScore, trend) := st in
  if uptrend price s20 s50 s200 then (technicalScore + 25, bullish)
  else if downtrend price s20 s50 s200 then (technicalScore - 25, bearish)
  else (technicalScore, trend).

Definition scoring (data : StockInput) (ti : TechnicalIndicators) : Scoring :=
  trend_rule (currentPrice data) (sma20 ti) (sma50 ti) (sma200 ti)
    (rsi_rule (rsi ti) (50, neutral)).

(** The unclamped [technicalScore] after both rules. *)
Definition raw_technicalScore (data : StockInput) (ti : TechnicalIndicators) : Q :=
  fst (scoring data ti).

(** Lines 180-184. *)
Definition rating_of (technicalScore : Q) : Rating :=
  if JS.ge technicalScore 80 then StrongBuy
  else if JS.ge technicalScore 65 then Buy
  else if JS.ge technicalScore 35 then Hold
  else if JS.ge technicalScore 20 then Sell
  else StrongSell.

(** Lines 187-189. *)
Definition risk_of (changePercent : Q) : RiskLevel :=
  if JS.gt changePercent 5 || JS.lt changePercent (-5) then High
  else if JS.gt (Qabs changePercent) 2 then Medium
  else Low.

(** Lines 207-210. *)
Definition label_of (technicalScore : Q) : SentimentLabel :=
  if JS.ge technicalScore 80 then VeryPositive
  else if JS.ge technicalScore 60 then Positive
  else if JS.ge technicalScore 40 then Neutral
  else if JS.ge technicalScore 20 then Negative
  else VeryNegative.

(** Line 201: [Math.min(Math.max(technicalScore, 20), 95)]. *)
Definition confidence_of (technicalScore : Q) : Q :=
  JS.min (JS.max technicalScore 20) 95.

(** Line 203. *)
Definition priceTarget_of (price technicalScore : Q) : Q :=
  price * (1 + (technicalScore - 50) / 200).

(** The percentage of the fifth key factor.  When the two extremes
    coincide the source divides by zero and [toFixed] prints the infinity
    or [NaN] it gets. *)
Definition range_text (data : StockInput) : string :=
  let num := currentPrice data - low52Week data in
  let den := high52Week data - low52Week data in
  if Qeq_bool den 0 then
    if JS.gt num 0 then "Infinity"
    else if JS.lt num 0 then "-Infinity"
    else "NaN"
  else toFixed (num / den * 100) 1.

(** Lines 191-197. *)
Definition keyFactors_of (data : StockInput) (ti : TechnicalIndicators)
    (trend : Trend) : list string :=
  [ ("RSI at " ++ toFixed (rsi ti) 1 ++ " indicates "
      ++ (if JS.lt (rsi ti) 30 then "oversold"
          else if JS.gt (rsi ti) 70 then "overbought" else "neutral")
      ++ " conditions")%string;
    ("Price is "
      ++ (if JS.gt (currentPrice data) (sma20 ti) then "above" else "below")
      ++ " 20-day moving average (" ++ toFixed (sma20 ti) 2 ++ ")")%string;
    ("Current trend shows " ++ trend_text trend
      ++ " momentum based on technical analysis")%string;
    ("Volume analysis suggests "
      ++ (if JS.gt (volume data) (avgVolume ti) then "increased" else "decreased")
      ++ " institutional interest")%string;
    ("52-week range positioning indicates " ++ range_text data
      ++ "% of range")%string ].

(** ** The randomness source *)

(** A generator is the sequence of its draws; [Math.random()] hands out the
    next one.  Computations that draw are state transformers over it. *)
Definition Rng : Type := nat -> Q.

Definition Rand (A : Type) : Type := Rng -> A * Rng.

Definition ret {A : Type} (a : A) : Rand A := fun g => (a, g).

Definition bind {A B : Type} (m : Rand A) (k : A -> Rand B) : Rand B :=
  fun g => let '(a, g') := m g in k a g'.

Notation "x <- m ;; k" := (bind m (fun x => k))
  (at level 61, m at next level, right associativity).

Definition Math_random : Rand Q :=
  fun g => (g O, fun n => g (S n)).

(** The value computed by a run started on generator [g]. *)
Definition run {A : Type} (m : Rand A) (g : Rng) : A := fst (m g).

(** The source that returns [0.5] on every draw. *)
Definition constant_half (g : Rng) : Prop := forall n, g n == 0.5.

(** The object literal returned by [generateAIAnalysis]; its properties are
    evaluated in order, so the draw of [fundamentalScore] comes first. *)
Definition generateAIAnalysis (data : StockInput) (ti : TechnicalIndicators)
    : Rand AIAnalysis :=
  let '(technicalScore, trend) := scoring data ti in
  let overallRating := rating_of technicalScore in
  let riskLevel := risk_of (changePercent data) in
  let keyFactors := keyFactors_of data ti trend in
  r1 <- Math_random ;;
  r2 <- Math_random ;;
  ret (mkAIAnalysis
         overallRating
         (confidence_of technicalScore)
         riskLevel
         (priceTarget_of (currentPrice data) technicalScore)
         keyFactors
         (mkSentiment technicalScore (label_of technicalScore))
         (JS.round technicalScore)
         (JS.round (technicalScore * 0.9 + r1 * 20))
         (JS.round (technicalScore * 1.1 + r2 * 15))).

(** ** Prediction (fetchStockData, lines 352-359) *)

Record Prediction : Type := mkPrediction {
  nextDay : Q;
  nextWeek : Q;
  nextMonth : Q;
  pred_confidence : Q;
  pred_trend : Trend
}.

Definition prediction_trend (sentimentScore : Q) : Trend :=
  if JS.ge sentimentScore 60 then bullish
  else if JS.le sentimentScore 40 then bearish
  else neutral.

Definition computePrediction (price : Q) (ti : TechnicalIndicators)
    (aiAnalysis : AIAnalysis) : Rand Prediction :=
  r1 <- Math_random ;;
  r2 <- Math_random ;;
  r3 <- Math_random ;;
  ret (mkPrediction
         (price * (1 + (r1 - 0.5) * 0.03))
         (price * (1 + (rsi ti - 50) / 1000 + (r2 - 0.5) * 0.05))
         (price * (1 + (rsi ti - 50) / 500 + (r3 - 0.5) * 0.1))
         (confidence aiAnalysis)
         (prediction_trend (score (sentiment aiAnalysis)))).

(** Lines 292-308: the snapshot handed to the engine. *)
Definition technicalIndicators_of (Math_sqrt : Q -> Q) (closes : list Q)
    (vol avgVol : Q) : TechnicalIndicators :=
  mkTechnicalIndicators
    (calculateRSI_default closes)
    (calculateMACD closes)
    (calculateBollingerBands_default Math_sqrt closes)
    (calculateSMA closes 20)
    (calculateSMA closes 50)
    (calculateSMA closes 200)
    vol avgVol.

(** Lines 348-365: the analysis, then the prediction, on one generator. *)
Definition analyse (data : StockInput) (ti : TechnicalIndicators)
    : Rand (AIAnalysis * Prediction) :=
  aiAnalysis <- generateAIAnalysis data ti ;;
  prediction <- computePrediction (currentPrice data) ti aiAnalysis ;;
  ret (aiAnalysis, prediction).

(** Two analyses, respectively two predictions, that agree: numeric fields
    are numerically equal, every other field is the same. *)
Definition same_analysis (a b : AIAnalysis) : Prop :=
  overallRating a = overallRating b /\
  confidence a == confidence b /\
  riskLevel a = riskLevel b /\
  priceTarget a == priceTarget b /\
  keyFactors a = keyFactors b /\
  score (sentiment a) == score (sentiment b) /\
  label (sentiment a) = label (sentiment b) /\
  technicalScore a = technicalScore b /\
  fundamentalScore a = fundamentalScore b /\
  marketScore a = marketScore b.

Definition same_prediction (p q : Prediction) : Prop :=
  nextDay p == nextDay q /\
  nextWeek p == nextWeek q /\
  nextMonth p == nextMonth q /\
  pred_confidence p == pred_confidence q /\
  pred_trend p = pred_trend q.

(** ** Monotone series *)

Fixpoint strictly_increasing (l : list Q) : Prop :=
  match l with
  | a :: (b :: _) as t => a < b /\ strictly_increasing t
  | _ => True
  end.

Fixpoint strictly_decreasing (l : list Q) : Prop :=
  match l with
  | a :: (b :: _) as t => b < a /\ strictly_decreasing t
  | _ => True
  end.

(** The [n]-element series [start, start + step, start + 2 step, ...]. *)
Fixpoint ramp (start step : Q) (n : nat) : list Q :=
  match n with
  | O => []
  | S n' => start :: ramp (start + step) step n'
  end.

(** ** Sample inputs *)

(** The nine totals the two rules can produce. *)
Definition score_values : list Q := [5; 25; 30; 45; 50; 55; 70; 75; 95].

(** A snapshot with the given RSI and moving averages, everything else
    at rest. *)
Definition snapshot (r s20 s50 s200 : Q) : TechnicalIndicators :=
  mkTechnicalIndicators r (mkMACD 0 0 0) (mkBollinger s20 s20 s20)
    s20 s50 s200 0 0.

(** A quote at the given price: no change on the day, no volume, and a
    52-week range of [0 .. 2 * price]. *)
Definition quote (price : Q) : StockInput :=
  mkStockInput price 0 0 (2 * price) 0.

(** One input of the engine per rating band and sentiment label. *)
Definition sample_for_rating (r : Rating) : StockInput * TechnicalIndicators :=
  match r with
  | StrongBuy => (quote 4, snapshot 20 3 2 1)
  | Buy => (quote 1, snapshot 20 1 1 1)
  | Hold => (quote 1, snapshot 50 1 1 1)
  | Sell => (quote 1, snapshot 80 1 1 1)
  | StrongSell => (quote 1, snapshot 80 2 3 4)
  end.

Definition sample_for_label (l : SentimentLabel) : StockInput * TechnicalIndicators :=
  match l with
  | VeryPositive => sample_for_rating StrongBuy
  | Positive => sample_for_rating Buy
  | Neutral => sample_for_rating Hold
  | Negative => sample_for_rating Sell
  | VeryNegative => sample_for_rating StrongSell
  end.

(** A square root to run the bands with: the root of [x] rounded down to
    six decimals. *)
Definition sqrt_down (x : Q) : Q :=
  Z.sqrt (Qfloor (x * inject_Z (10 ^ 12))) # (10 ^ 6).

(** Both running averages are non-negative. *)
Definition both_nonneg (acc : Q * Q) : Prop := 0 <= fst acc /\ 0 <= snd acc.

(** Only gains so far, resp. no gain so far. *)
Definition gains_only (acc : Q * Q) : Prop := 0 < fst acc /\ snd acc == 0.
Definition no_gain (acc : Q * Q) : Prop := fst acc == 0.

(** ** Population variance, as the specification words it *)

(** The sum of a list, its elements added one after the other from the
    left, starting at zero.  It is written on its own: nothing of the
    embedding of the source enters it. *)
Fixpoint sum_from (acc : Q) (l : list Q) : Q :=
  match l with
  | [] => acc
  | x :: rest => sum_from (acc + x) rest
  end.

Definition total (l : list Q) : Q := sum_from 0 l.

(** The number of elements of a list, as a rational. *)
Definition size (l : list Q) : Q := Z.of_nat (length l) # 1.

(** The arithmetic mean of a window and the mean of the squared distances
    to it. *)
Definition mean (window : list Q) : Q :=
  total window / size window.

Definition population_variance (window : list Q) : Q :=
  total (map (fun x => (x - mean window) ^ 2) window) / size window.

(** The trailing window of [period] prices. *)
Definition trailing_window (prices : list Q) (period : nat) : list Q :=
  skipn (length prices - period) prices.

(** ** The same loops over IEEE doubles *)

Module Double.

(** A small count as a double (exact). *)
Fixpoint num (n : nat) : float :=
  match n with
  | O => 0%float
  | S k => (num k + 1)%float
  end.

Definition at_index (xs : list float) (i : nat) : float := nth i xs 0%float.

Definition gt (a b : float) : bool := PrimFloat.ltb b a.
Definition lt (a b : float) : bool := PrimFloat.ltb a b.

(** [x || 1]: zero of either sign and [NaN] are falsy. *)
Definition or_one (x : float) : float :=
  if (PrimFloat.eqb x 0 || negb (PrimFloat.eqb x x))%bool then 1%float else x.

Definition ema_step (prices : list float) (multiplier ema : float) (i : nat)
    : float :=
  (at_index prices i * multiplier + ema * (1 - multiplier))%float.

(** [calculateEMA] past its length guard. *)
Definition calculateEMA (prices : list float) (period : nat) : float :=
  let multiplier := (2 / (num period + 1))%float in
  fold_left (ema_step prices multiplier)
    (seq 1 (length prices - 1)) (at_index prices 0).

(** [macdLine] of [calculateMACD] past its length guard. *)
Definition macdLine (prices : list float) : float :=
  (calculateEMA prices 12 - calculateEMA prices 26)%float.

Definition rsi_seed_step (prices : list float) (acc : float * float) (i : nat)
    : float * float :=
  let '(gains, losses) := acc in
  let change := (at_index prices i - at_index prices (i - 1))%float in
  if gt change 0 then ((gains + change)%float, losses)
  else (gains, (losses + PrimFloat.abs change)%float).

Definition rsi_smooth_step (prices : list float) (period : nat)
    (acc : float * float) (i : nat) : float * float :=
  let '(avgGain, avgLoss) := acc in
  let change := (at_index prices i - at_index prices (i - 1))%float in
  let gain := if gt change 0 then change else 0%float in
  let loss := if lt change 0 then PrimFloat.abs change else 0%float in
  (((avgGain * (num period - 1) + gain) / num period)%float,
   ((avgLoss * (num period - 1) + loss) / num period)%float).

(** [calculateRSI] past its length guard. *)
Definition calculateRSI (prices : list float) (period : nat) : float :=
  let '(gains, losses) :=
    fold_left (rsi_seed_step prices) (seq 1 period) (0, 0)%float in
  let '(avgGain, avgLoss) :=
    fold_left (rsi_smooth_step prices period)
      (seq (period + 1) (length prices - (period + 1)))
      ((gains / num period)%float, (losses / num period)%float) in
  let rs := (avgGain / or_one avgLoss)%float in
  (100 - 100 / (1 + rs))%float.

Fixpoint ramp (start step : float) (n : nat) : list float :=
  match n with
  | O => []
  | S n' => start :: ramp (start + step)%float step n'
  end.

End Double.

(** ** Numbers that may be infinite *)

(** [Math.max] and [Math.min] of an array that can be empty return an
    infinity; there the result is kept with the infinities and [NaN] of the
    host. *)
Module Ext.

Inductive t : Type :=
  | Finite (q : Q)
  | PlusInfinity
  | MinusInfinity
  | NotANumber.

(** [e || d]: of these values only zero and [NaN] are falsy. *)
Definition or_else (e : t) (d : Q) : t :=
  match e with
  | Finite x => if Qeq_bool x 0 then Finite d else e
  | NotANumber => Finite d
  | other => other
  end.

End Ext.

(** ** Series that never rise *)

Fixpoint non_increasing (l : list Q) : Prop :=
  match l with
  | a :: (b :: _) as t => b <= a /\ non_increasing t
  | _ => True
  end.

(** ** Signals of the indicator cards (components/StockChart.tsx, lines 253-263) *)

Inductive Icon : Type := TrendingUp | TrendingDown | Minus.

(** The object a signal helper returns (the helpers further down the
    source set no icon, hence the option). *)
Record Signal : Type := mkSignal {
  signal : string;
  color : string;
  icon : option Icon
}.

Definition green : string := "text-green-600 bg-green-50 border-green-200".
Definition red : string := "text-red-600 bg-red-50 border-red-200".
Definition yellow : string := "text-yellow-600 bg-yellow-50 border-yellow-200".

Definition getRSISignal (rsi : Q) : Signal :=
  if JS.gt rsi 70 then mkSignal "Overbought" red (Some TrendingDown)
  else if JS.lt rsi 30 then mkSignal "Oversold" green (Some TrendingUp)
  else mkSignal "Neutral" yellow (Some Minus).


(** ** Rating, sentiment label and prediction trend that go together *)

Definition aligned_outcomes : list (Rating * SentimentLabel * Trend) :=
  [ (StrongBuy, VeryPositive, bullish);
    (Buy, Positive, bullish);
    (Hold, Neutral, neutral);
    (Sell, Negative, bearish);
    (StrongSell, VeryNegative, bearish) ].

(** A generator as [Math.random] is specified: every draw is in [0, 1). *)
Definition unit_draws (g : Rng) : Prop := forall n, 0 <= g n /\ g n < 1.

(** ** The quote and the series of fetchStockData (lines 243-308) *)

(** A possibly missing number is truthy when it is there and not zero. *)
Definition truthy (v : option Q) : bool :=
  match v with
  | Some x => negb (Qeq_bool x 0)
  | None => false
  end.

(** The fields of [meta] that the quote arithmetic reads. *)
Record Meta : Type := mkMeta {
  regularMarketPrice : option Q;
  previousClose : option Q;
  regularMarketVolume : option Q
}.

Record Quote : Type := mkQuote {
  q_currentPrice : Q;
  q_previousClose : Q;
  q_change : Q;
  q_changePercent : Q
}.

(** Lines 244-247. *)
Definition quote_of (meta : Meta) : Quote :=
  let currentPrice :=
    JS.or_else (regularMarketPrice meta) (JS.or_else (previousClose meta) 0) in
  let previousClose := JS.or_else (previousClose meta) currentPrice in
  let change := currentPrice - previousClose in
  let changePercent :=
    if truthy (Some previousClose) then change / previousClose * 100 else 0 in
  mkQuote currentPrice previousClose change changePercent.

(** Lines 272-273: [(raw || []).filter(x => x && x > 0)] on an array that
    may be missing and may hold [null] entries. *)
Definition keep_positive (raw : option (list (option Q))) : list Q :=
  flat_map
    (fun v => match v with
              | Some x => if truthy (Some x) && JS.gt x 0 then [x] else []
              | None => []
              end)
    (match raw with Some xs => xs | None => [] end).

(** The positive entries of an array, in order and as often as they occur:
    the cleaning as one would specify it, written without the helpers of
    the embedding. *)
Fixpoint positive_entries (xs : list (option Q)) : list Q :=
  match xs with
  | [] => []
  | None :: rest => positive_entries rest
  | Some x :: rest =>
      if Qlt_le_dec 0 x then x :: positive_entries rest
      else positive_entries rest
  end.

(** Lines 287-289. *)
Definition averageVolume (volumes : list Q) (marketVolume : option Q) : Q :=
  if (0 <? length volumes)%nat then
    JS.reduce_sum (fun vol => vol) (JS.slice_last volumes 20)
    / JS.num (Nat.min 20 (length volumes))
  else JS.or_else marketVolume 1000000.

(** [xs[xs.length - back + index]]: [undefined] when the index is negative
    or past the end. *)
Definition from_end (xs : list Q) (back : Z) (index : nat) : option Q :=
  let i := (Z.of_nat (length xs) - back + Z.of_nat index)%Z in
  if (i <? 0)%Z then None else nth_error xs (Z.to_nat i).

Record HistoryPoint : Type := mkHistoryPoint {
  hp_date : string;
  hp_price : Q;
  hp_volume : Q
}.

Section HistoricalData.

(** [new Date(timestamp * 1000).toISOString().split('T')[0]]. *)
Variable toISODate : Q -> string.

(** Lines 276-280: the last thirty timestamps, each with the close and
    the volume found thirty places from the end of their own arrays. *)
Definition historicalData_of (timestamps closes volumes : list Q)
    (currentPrice : Q) : list HistoryPoint :=
  let window := JS.slice_last timestamps 30 in
  filter (fun item => JS.gt (hp_price item) 0)
    (map (fun it : nat * Q =>
            let '(index, timestamp) := it in
            mkHistoryPoint
              (toISODate timestamp)
              (JS.or_else (from_end closes 30 index) currentPrice)
              (JS.or_else (from_end volumes 30 index) 0))
         (combine (seq 0 (length window)) window)).

End HistoricalData.

(** [Math.max(...xs)] and [Math.min(...xs)]: the infinities on no
    argument. *)
Definition Math_max (xs : list Q) : Ext.t :=
  match xs with
  | [] => Ext.MinusInfinity
  | x :: rest => Ext.Finite (fold_left JS.max rest x)
  end.

Definition Math_min (xs : list Q) : Ext.t :=
  match xs with
  | [] => Ext.PlusInfinity
  | x :: rest => Ext.Finite (fold_left JS.min rest x)
  end.

(** Lines 283-284. *)
Definition high52Week_of (closes : list Q) (currentPrice : Q) : Ext.t :=
  Ext.or_else (Math_max (JS.slice_last closes 252)) (currentPrice * 1.2).

Definition low52Week_of (closes : list Q) (currentPrice : Q) : Ext.t :=
  Ext.or_else (Math_min (JS.slice_last closes 252)) (currentPrice * 0.8).

(** ** generateFallbackStockData (lines 707-786) *)

(** [Math.round(x * 100) / 100] and [Math.floor(x)]. *)
Definition cents (x : Q) : Q := inject_Z (JS.round (x * 100)) / 100.

Definition Math_floor (x : Q) : Q := inject_Z (Qfloor x).

(** One generated day: its price and its volume.  The date, read off the
    clock, is not part of the model. *)
Definition Day : Type := (Q * Q)%type.

(** The loop of lines 716-729, for [n] remaining days from the running
    [price]: one draw moves the price, the next one is the volume. *)
Fixpoint fallback_history (n : nat) (price : Q) : Rand (list Day) :=
  match n with
  | O => ret []
  | S k =>
      r1 <- Math_random ;;
      let price := price + (r1 - 0.5) * price * 0.03 in
      r2 <- Math_random ;;
      rest <- fallback_history k price ;;
      ret ((cents price, Math_floor (r2 * 10000000) + 1000000) :: rest)
  end.

Record FallbackData : Type := mkFallbackData {
  fb_stock : StockInput;
  fb_change : Q;
  fb_marketCap : Q;
  fb_historicalData : list Day;
  fb_technicalIndicators : TechnicalIndicators;
  fb_aiAnalysis : AIAnalysis;
  fb_prediction : Prediction
}.

Definition generateFallbackStockData (Math_sqrt : Q -> Q) : Rand FallbackData :=
  r <- Math_random ;;
  let basePrice := 100 + r * 400 in
  r <- Math_random ;;
  let change := (r - 0.5) * 10 in
  let changePercent := change / basePrice * 100 in
  historicalData <- fallback_history 30 basePrice ;;
  let closes := map fst historicalData in
  let volumes := map snd historicalData in
  let avgVolume :=
    JS.reduce_sum (fun vol => vol) volumes / JS.num (length volumes) in
  let lastVolume := JS.at_index volumes (length volumes - 1) in
  let technicalIndicators :=
    technicalIndicators_of Math_sqrt closes lastVolume avgVolume in
  r <- Math_random ;;
  let marketCap := Math_floor (r * 500000000000) + 10000000000 in
  let stockData :=
    mkStockInput (cents basePrice) (cents changePercent) lastVolume
      (cents (basePrice * 1.3)) (cents (basePrice * 0.7)) in
  aiAnalysis <- generateAIAnalysis stockData technicalIndicators ;;
  prediction <- computePrediction basePrice technicalIndicators aiAnalysis ;;
  ret (mkFallbackData stockData (cents change) marketCap historicalData
         technicalIndicators aiAnalysis prediction).

(** The least a price can be after [n] more days: each day takes off at
    most 1.5 percent. *)
Fixpoint decay (n : nat) (x : Q) : Q :=
  match n with
  | O => x
  | S k => decay k (x * 0.985)
  end.

(** * Properties *)

(** ** Comparisons *)

Lemma gt_true (a b : Q) : JS.gt a b = true <-> b < a.
Proof.
  unfold JS.gt. rewrite negb_true_iff. split; intro H.
  - apply Qnot_le_lt. intro L. apply Qle_bool_iff in L. congruence.
  - destruct (Qle_bool a b) eqn:E; [|reflexivity].
    apply Qle_bool_iff in E. exfalso. apply (Qlt_not_le _ _ H E).
Qed.

Lemma gt_false (a b : Q) : JS.gt a b = false <-> a <= b.
Proof.
  unfold JS.gt. rewrite negb_false_iff. apply Qle_bool_iff.
Qed.

Lemma lt_true (a b : Q) : JS.lt a b = true <-> a < b.
Proof. unfold JS.lt. apply (gt_true b a). Qed.

Lemma lt_false (a b : Q) : JS.lt a b = false <-> b <= a.
Proof. unfold JS.lt. apply (gt_false b a). Qed.

Lemma ge_true (a b : Q) : JS.ge a b = true <-> b <= a.
Proof. unfold JS.ge. apply Qle_bool_iff. Qed.

Lemma ge_false (a b : Q) : JS.ge a b = false <-> a < b.
Proof.
  unfold JS.ge. rewrite <- (negb_true_iff (Qle_bool b a)). apply (gt_true b a).
Qed.

Lemma le_true (a b : Q) : JS.le a b = true <-> a <= b.
Proof. unfold JS.le. apply Qle_bool_iff. Qed.

Lemma le_false (a b : Q) : JS.le a b = false <-> b < a.
Proof. apply (ge_false b a). Qed.

(** Case analysis on every comparison of the goal, each branch keeping the
    corresponding order fact. *)
Ltac js_cases :=
  repeat match goal with
  | |- context [JS.gt ?a ?b] =>
      let H := fresh "C" in
      destruct (JS.gt a b) eqn:H;
      [apply gt_true in H | apply gt_false in H]
  | |- context [JS.lt ?a ?b] =>
      let H := fresh "C" in
      destruct (JS.lt a b) eqn:H;
      [apply lt_true in H | apply lt_false in H]
  | |- context [JS.ge ?a ?b] =>
      let H := fresh "C" in
      destruct (JS.ge a b) eqn:H;
      [apply ge_true in H | apply ge_false in H]
  | |- context [JS.le ?a ?b] =>
      let H := fresh "C" in
      destruct (JS.le a b) eqn:H;
      [apply le_true in H | apply le_false in H]
  end; simpl.

(** ** Rating bands *)

(** C1: for every score the rating is fixed by the top-down thresholds
    80, 65, 35, 20; each band is closed on its lower bound and open on its
    upper one, so the five bands partition the scores and every score has
    exactly the rating of the one band it falls in. *)
Theorem rating_bands (s : Q) :
  (rating_of s = StrongBuy <-> 80 <= s) /\
  (rating_of s = Buy <-> 65 <= s /\ s < 80) /\
  (rating_of s = Hold <-> 35 <= s /\ s < 65) /\
  (rating_of s = Sell <-> 20 <= s /\ s < 35) /\
  (rating_of s = StrongSell <-> s < 20).
Proof.
  unfold rating_of. js_cases;
    repeat split; intros; try discriminate; try reflexivity; try lra.
Qed.

(** ** Additive scoring *)

Lemma scoring_cases (data : StockInput) (ti : TechnicalIndicators) :
  scoring data ti =
    trend_rule (currentPrice data) (sma20 ti) (sma50 ti) (sma200 ti)
      (if JS.lt (rsi ti) 30 then (50 + 20, bullish)
       else if JS.gt (rsi ti) 70 then (50 - 20, bearish)
       else (50, neutral)).
Proof. reflexivity. Qed.

Lemma uptrend_true (p a b c : Q) :
  uptrend p a b c = true <-> a < p /\ b < a /\ c < b.
Proof.
  unfold uptrend. rewrite !andb_true_iff, !gt_true. tauto.
Qed.

Lemma downtrend_true (p a b c : Q) :
  downtrend p a b c = true <-> p < a /\ a < b /\ b < c.
Proof.
  unfold downtrend. rewrite !andb_true_iff, !lt_true. tauto.
Qed.

Lemma up_down_exclusive (p a b c : Q) :
  ~ (uptrend p a b c = true /\ downtrend p a b c = true).
Proof.
  rewrite uptrend_true, downtrend_true. intros [[H _] [H' _]]. lra.
Qed.

Lemma rsi_rules_exclusive (r : Q) :
  ~ (JS.lt r 30 = true /\ JS.gt r 70 = true).
Proof.
  rewrite lt_true, gt_true. intros [H H']. lra.
Qed.

(** The analysis does not depend on the generator except in the two
    perturbed scores. *)
Lemma generateAIAnalysis_run (data : StockInput) (ti : TechnicalIndicators)
    (g : Rng) :
  run (generateAIAnalysis data ti) g =
    let s := raw_technicalScore data ti in
    mkAIAnalysis (rating_of s) (confidence_of s) (risk_of (changePercent data))
      (priceTarget_of (currentPrice data) s)
      (keyFactors_of data ti (snd (scoring data ti)))
      (mkSentiment s (label_of s))
      (JS.round s)
      (JS.round (s * 0.9 + g 0%nat * 20))
      (JS.round (s * 1.1 + g 1%nat * 15)).
Proof.
  unfold run, generateAIAnalysis, raw_technicalScore.
  destruct (scoring data ti) as [s t]. reflexivity.
Qed.

(** C2: with RSI above 70 and the confirmed uptrend
    price > sma20 > sma50 > sma200, the score is 50 - 20 + 25 = 55 and the
    overall rating is Hold, not Buy. *)
Theorem overbought_uptrend_is_hold
    (data : StockInput) (ti : TechnicalIndicators) (g : Rng) :
  70 < rsi ti ->
  sma20 ti < currentPrice data -> sma50 ti < sma20 ti -> sma200 ti < sma50 ti ->
  raw_technicalScore data ti = 50 - 20 + 25 /\
  raw_technicalScore data ti == 55 /\
  technicalScore (run (generateAIAnalysis data ti) g) = 55%Z /\
  overallRating (run (generateAIAnalysis data ti) g) = Hold /\
  overallRating (run (generateAIAnalysis data ti) g) <> Buy.
Proof.
  intros Hr H1 H2 H3.
  assert (E : raw_technicalScore data ti = 50 - 20 + 25).
  { unfold raw_technicalScore. rewrite scoring_cases.
    assert (L : JS.lt (rsi ti) 30 = false) by (apply lt_false; lra).
    assert (G : JS.gt (rsi ti) 70 = true) by (apply gt_true; lra).
    rewrite L, G. unfold trend_rule.
    assert (U : uptrend (currentPrice data) (sma20 ti) (sma50 ti) (sma200 ti) = true)
      by (apply uptrend_true; auto).
    rewrite U. reflexivity. }
  rewrite generateAIAnalysis_run. cbv zeta. rewrite E. simpl.
  repeat split; try reflexivity. discriminate.
Qed.

(** The input of the example: a quote at 400 above averages 390 > 350 > 300
    with RSI 75. *)
Lemma overbought_uptrend_is_hold_witness :
  raw_technicalScore (quote 400) (snapshot 75 390 350 300) == 55 /\
  overallRating
    (run (generateAIAnalysis (quote 400) (snapshot 75 390 350 300))
       (fun _ => 0.5)) = Hold.
Proof.
  destruct (overbought_uptrend_is_hold (quote 400) (snapshot 75 390 350 300)
              (fun _ => 0.5)) as (_ & H & _ & H' & _);
    [reflexivity | reflexivity | reflexivity | reflexivity | ].
  split; [exact H | exact H'].
Defined.

(** The score is one of the nine totals, whatever the input. *)
Lemma raw_technicalScore_values (data : StockInput) (ti : TechnicalIndicators) :
  In (raw_technicalScore data ti) score_values.
Proof.
  unfold raw_technicalScore. rewrite scoring_cases. unfold trend_rule.
  destruct (JS.lt (rsi ti) 30); [| destruct (JS.gt (rsi ti) 70)];
    (destruct (uptrend _ _ _ _); [| destruct (downtrend _ _ _ _)]);
    vm_compute; tauto.
Qed.

Lemma score_values_range (s : Q) : In s score_values -> 5 <= s /\ s <= 95.
Proof.
  unfold score_values. simpl.
  intros H; repeat (destruct H as [H | H]; [subst s; split; discriminate | ]).
  contradiction.
Qed.

Lemma confidence_of_range (s : Q) :
  20 <= confidence_of s /\ confidence_of s <= 95.
Proof.
  unfold confidence_of, JS.min, JS.max.
  destruct (Qle_bool s 20) eqn:A.
  - simpl. split; discriminate.
  - destruct (Qle_bool s 95) eqn:B.
    + apply Qle_bool_iff in B. split; [| exact B].
      apply Qlt_le_weak, Qnot_le_lt. intro L. apply Qle_bool_iff in L. congruence.
    + split; [discriminate | apply Qle_refl].
Qed.

(** C10: the unclamped score is one of 5, 25, 30, 45, 50, 55, 70, 75, 95;
    the two RSI adjustments exclude each other and so do the two trend
    adjustments; hence the sentiment score lies in [0,100], the confidence
    in [20,95], and every rating band and every sentiment label is the
    result on some input. *)
Theorem technicalScore_nine_values :
  (forall data ti, In (raw_technicalScore data ti) score_values) /\
  (forall r, ~ (JS.lt r 30 = true /\ JS.gt r 70 = true)) /\
  (forall p a b c, ~ (uptrend p a b c = true /\ downtrend p a b c = true)) /\
  (forall data ti g,
     score (sentiment (run (generateAIAnalysis data ti) g))
       = raw_technicalScore data ti /\
     0 <= score (sentiment (run (generateAIAnalysis data ti) g)) <= 100 /\
     20 <= confidence (run (generateAIAnalysis data ti) g) <= 95) /\
  (forall r, exists data ti, forall g,
     overallRating (run (generateAIAnalysis data ti) g) = r) /\
  (forall l, exists data ti, forall g,
     label (sentiment (run (generateAIAnalysis data ti) g)) = l).
Proof.
  split; [exact raw_technicalScore_values |].
  split; [exact rsi_rules_exclusive |].
  split; [exact up_down_exclusive |].
  split; [| split].
  - intros data ti g. rewrite generateAIAnalysis_run. cbv zeta. simpl.
    split; [reflexivity |].
    destruct (score_values_range _ (raw_technicalScore_values data ti)) as [A B].
    split; [split; lra | apply confidence_of_range].
  - intros r.
    exists (fst (sample_for_rating r)), (snd (sample_for_rating r)).
    intros g. rewrite generateAIAnalysis_run. destruct r; reflexivity.
  - intros l.
    exists (fst (sample_for_label l)), (snd (sample_for_label l)).
    intros g. rewrite generateAIAnalysis_run. destruct l; reflexivity.
Qed.

(** ** Reproducibility under a fixed randomness source *)

Lemma round_comp (x y : Q) : x == y -> JS.round x = JS.round y.
Proof.
  intros E. unfold JS.round. apply Qfloor_comp. rewrite E. reflexivity.
Qed.

Lemma same_analysis_half (data : StockInput) (ti : TechnicalIndicators)
    (g1 g2 : Rng) :
  g1 0%nat == g2 0%nat -> g1 1%nat == g2 1%nat ->
  same_analysis (run (generateAIAnalysis data ti) g1)
                (run (generateAIAnalysis data ti) g2).
Proof.
  intros E0 E1. rewrite !generateAIAnalysis_run. cbv zeta. unfold same_analysis.
  simpl. repeat split; try reflexivity; apply round_comp.
  - rewrite E0. reflexivity.
  - rewrite E1. reflexivity.
Qed.

Lemma computePrediction_run (price : Q) (ti : TechnicalIndicators)
    (a : AIAnalysis) (g : Rng) :
  run (computePrediction price ti a) g =
    mkPrediction
      (price * (1 + (g 0%nat - 0.5) * 0.03))
      (price * (1 + (rsi ti - 50) / 1000 + (g 1%nat - 0.5) * 0.05))
      (price * (1 + (rsi ti - 50) / 500 + (g 2%nat - 0.5) * 0.1))
      (confidence a)
      (prediction_trend (score (sentiment a))).
Proof. reflexivity. Qed.

Lemma prediction_trend_comp (x y : Q) :
  x == y -> prediction_trend x = prediction_trend y.
Proof.
  intros E. unfold prediction_trend, JS.ge, JS.le.
  rewrite (Qleb_comp 60 60 (Qeq_refl 60) x y E).
  rewrite (Qleb_comp x y E 40 40 (Qeq_refl 40)). reflexivity.
Qed.

Lemma same_prediction_half (price : Q) (ti : TechnicalIndicators)
    (a b : AIAnalysis) (g1 g2 : Rng) :
  same_analysis a b ->
  g1 0%nat == g2 0%nat -> g1 1%nat == g2 1%nat -> g1 2%nat == g2 2%nat ->
  same_prediction (run (computePrediction price ti a) g1)
                  (run (computePrediction price ti b) g2).
Proof.
  intros S E0 E1 E2. rewrite !computePrediction_run.
  destruct S as (_ & Sc & _ & _ & _ & Ss & _).
  unfold same_prediction. simpl. repeat split.
  - rewrite E0. reflexivity.
  - rewrite E1. reflexivity.
  - rewrite E2. reflexivity.
  - exact Sc.
  - apply prediction_trend_comp, Ss.
Qed.

Lemma analyse_run (data : StockInput) (ti : TechnicalIndicators) (g : Rng) :
  run (analyse data ti) g =
    (run (generateAIAnalysis data ti) g,
     run (computePrediction (currentPrice data) ti
            (run (generateAIAnalysis data ti) g))
         (fun n => g (S (S n)))).
Proof.
  unfold run, analyse, generateAIAnalysis, bind, ret.
  destruct (scoring data ti) as [s t]. reflexivity.
Qed.

(** With no perturbation the three horizons are the plain projections. *)
Lemma prediction_without_noise (price : Q) (ti : TechnicalIndicators)
    (a : AIAnalysis) (g : Rng) :
  constant_half g ->
  nextDay (run (computePrediction price ti a) g) == price /\
  nextWeek (run (computePrediction price ti a) g)
    == price * (1 + (rsi ti - 50) / 1000) /\
  nextMonth (run (computePrediction price ti a) g)
    == price * (1 + (rsi ti - 50) / 500).
Proof.
  intros H. rewrite computePrediction_run. simpl.
  rewrite (H 0%nat), (H 1%nat), (H 2%nat). repeat split; field.
Qed.

(** C9: with the randomness source returning 0.5 on every draw, two runs on
    the same input give the same rating result (the perturbed
    fundamentalScore and marketScore included) and the same prediction,
    whichever generators the two runs hold. *)
Theorem fixed_source_reproducible
    (data : StockInput) (ti : TechnicalIndicators) (g1 g2 : Rng) :
  constant_half g1 -> constant_half g2 ->
  same_analysis (run (generateAIAnalysis data ti) g1)
                (run (generateAIAnalysis data ti) g2) /\
  (forall price a,
     same_prediction (run (computePrediction price ti a) g1)
                     (run (computePrediction price ti a) g2)) /\
  same_analysis (fst (run (analyse data ti) g1))
                (fst (run (analyse data ti) g2)) /\
  same_prediction (snd (run (analyse data ti) g1))
                  (snd (run (analyse data ti) g2)).
Proof.
  intros H1 H2.
  assert (E : forall n m, g1 n == g2 m).
  { intros n m. rewrite (H1 n), (H2 m). reflexivity. }
  assert (A : same_analysis (run (generateAIAnalysis data ti) g1)
                            (run (generateAIAnalysis data ti) g2))
    by (apply same_analysis_half; apply E).
  split; [exact A |]. split; [| split].
  - intros price a. apply same_prediction_half; try apply E.
    unfold same_analysis. repeat split; reflexivity.
  - rewrite !analyse_run. exact A.
  - rewrite !analyse_run. simpl. apply same_prediction_half; try apply E. exact A.
Qed.

(** The generator of the check below holds its draws as [1/2], not as the
    decimal [0.5]: the two runs need not share a generator. *)
Lemma fixed_source_reproducible_witness :
  same_analysis
    (fst (run (analyse (quote 400) (snapshot 75 390 350 300)) (fun _ => 0.5)))
    (fst (run (analyse (quote 400) (snapshot 75 390 350 300)) (fun _ => 1 # 2))) /\
  same_prediction
    (snd (run (analyse (quote 400) (snapshot 75 390 350 300)) (fun _ => 0.5)))
    (snd (run (analyse (quote 400) (snapshot 75 390 350 300)) (fun _ => 1 # 2))).
Proof.
  destruct (fixed_source_reproducible (quote 400) (snapshot 75 390 350 300)
              (fun _ => 0.5) (fun _ => 1 # 2)) as (_ & _ & A & P).
  - intros n. reflexivity.
  - intros n. reflexivity.
  - split; [exact A | exact P].
Defined.

(** ** Short series: SMA and EMA *)

Lemma last_elem_last (xs : list Q) (d : Q) :
  xs <> [] -> JS.last_elem xs = Some (last xs d).
Proof.
  intros N. unfold JS.last_elem. destruct xs as [| x xs]; [congruence |].
  clear N. revert x. induction xs as [| y ys IH]; intros x.
  - reflexivity.
  - specialize (IH y). simpl length in *. simpl last in *.
    replace (S (S (length ys)) - 1)%nat with (S (S (length ys) - 1))%nat by lia.
    simpl nth_error. exact IH.
Qed.

Lemma or_else_zero (x : Q) : JS.or_else (Some x) 0 == x.
Proof.
  unfold JS.or_else. destruct (Qeq_bool x 0) eqn:E.
  - apply Qeq_bool_eq in E. symmetry. exact E.
  - reflexivity.
Qed.

Lemma last_or_zero (xs : list Q) :
  JS.or_else (JS.last_elem xs) 0 == last xs 0.
Proof.
  destruct xs as [| x xs].
  - reflexivity.
  - rewrite (last_elem_last (x :: xs) 0) by discriminate. apply or_else_zero.
Qed.

(** C8: on a list with fewer than [p] elements SMA and EMA both return the
    last element, and 0 on the empty list; both are total, the read of
    [prices[length - 1]] being guarded by [|| 0]. *)
Theorem short_series_fallback (prices : list Q) (p : nat) :
  (length prices < p)%nat ->
  calculateSMA prices p == last prices 0 /\
  calculateEMA prices p == last prices 0 /\
  (prices = [] -> calculateSMA prices p = 0 /\ calculateEMA prices p = 0).
Proof.
  intros L. apply Nat.ltb_lt in L.
  unfold calculateSMA, calculateEMA. rewrite L.
  split; [apply last_or_zero |]. split; [apply last_or_zero |].
  intros ->. split; reflexivity.
Qed.

Lemma short_series_fallback_witness :
  calculateSMA [101; 99; 102.5] 20 == 102.5 /\
  calculateEMA [101; 99; 102.5] 12 == 102.5 /\
  calculateSMA [] 20 = 0 /\ calculateEMA [] 12 = 0.
Proof.
  destruct (short_series_fallback [101; 99; 102.5] 20) as (S & _ & _);
    [simpl; lia |].
  destruct (short_series_fallback [101; 99; 102.5] 12) as (_ & E & _);
    [simpl; lia |].
  destruct (short_series_fallback [] 20) as (_ & _ & Z); [simpl; lia |].
  destruct (short_series_fallback [] 12) as (_ & _ & Z'); [simpl; lia |].
  split; [exact S |]. split; [exact E |].
  split; [apply Z | apply Z']; reflexivity.
Defined.

(** ** MACD *)

Lemma calculateMACD_short (prices : list Q) :
  (length prices < 26)%nat -> calculateMACD prices = mkMACD 0 0 0.
Proof.
  intros L. apply Nat.ltb_lt in L. unfold calculateMACD. rewrite L. reflexivity.
Qed.

Lemma calculateMACD_long (prices : list Q) :
  (26 <= length prices)%nat ->
  calculateMACD prices =
    mkMACD (calculateEMA prices 12 - calculateEMA prices 26)
           ((calculateEMA prices 12 - calculateEMA prices 26) * 0.9)
           ((calculateEMA prices 12 - calculateEMA prices 26)
            - (calculateEMA prices 12 - calculateEMA prices 26) * 0.9).
Proof.
  intros L. apply Nat.ltb_ge in L. unfold calculateMACD. rewrite L. reflexivity.
Qed.

(** C3: below 26 prices MACD is the all-zero record; from 26 prices on its
    value is EMA(12) - EMA(26), its signal is the value times 0.9 and its
    histogram is the value minus the signal. *)
Theorem macd_spec (prices : list Q) :
  ((length prices < 26)%nat -> calculateMACD prices = mkMACD 0 0 0) /\
  ((26 <= length prices)%nat ->
     macd_value (calculateMACD prices)
       = calculateEMA prices 12 - calculateEMA prices 26 /\
     macd_signal (calculateMACD prices)
       = macd_value (calculateMACD prices) * 0.9 /\
     macd_histogram (calculateMACD prices)
       = macd_value (calculateMACD prices) - macd_signal (calculateMACD prices)).
Proof.
  split; intros L.
  - apply calculateMACD_short, L.
  - rewrite (calculateMACD_long prices L). simpl. repeat split.
Qed.

Lemma macd_zero_value (m : MACD) :
  macd_signal m = macd_value m * 0.9 ->
  macd_histogram m = macd_value m - macd_signal m ->
  (macd_all_zero m <-> macd_value m == 0).
Proof.
  intros S H. unfold macd_all_zero. rewrite H, S. split.
  - intros (V & _). exact V.
  - intros V. rewrite V. repeat split; reflexivity.
Qed.

(** C4 as stated fails: a constant series of 26 prices has MACD all zero. *)
Lemma macd_constant_series_all_zero :
  (26 <= length (repeat 100 26))%nat /\
  macd_all_zero (calculateMACD (repeat 100 26)).
Proof.
  split; [simpl; lia |]. vm_compute. repeat split; reflexivity.
Qed.

(** C4, amended: below 26 prices MACD is the all-zero record; from 26
    prices on it is all zero exactly when EMA(12) and EMA(26) coincide, as
    they do on the 26 prices of 100 above. *)
Theorem macd_zero_iff :
  (forall prices, (length prices < 26)%nat ->
     calculateMACD prices = mkMACD 0 0 0 /\ macd_all_zero (calculateMACD prices)) /\
  (forall prices, (26 <= length prices)%nat ->
     (macd_all_zero (calculateMACD prices)
        <-> calculateEMA prices 12 == calculateEMA prices 26)).
Proof.
  split.
  - intros prices L. rewrite (calculateMACD_short prices L).
    split; [reflexivity |]. repeat split; reflexivity.
  - intros prices L. rewrite (calculateMACD_long prices L).
    rewrite macd_zero_value by reflexivity. simpl.
    split; intros E; lra.
Qed.

(** ** RSI *)

Lemma fold_left_invariant {A B : Type} (P : A -> Prop) (f : A -> B -> A)
    (l : list B) :
  (forall a b, In b l -> P a -> P (f a b)) ->
  forall a, P a -> P (fold_left f l a).
Proof.
  induction l as [| b l IH]; simpl; intros H a Pa; [exact Pa |].
  apply IH.
  - intros a' b' I. apply H. right. exact I.
  - apply H; [left; reflexivity | exact Pa].
Qed.

Lemma num_ge_1 (p : nat) : (1 <= p)%nat -> 1 <= JS.num p.
Proof.
  intros H. unfold JS.num. change 1 with (inject_Z 1).
  rewrite <- Zle_Qle. lia.
Qed.

Lemma div_nonneg (x n : Q) : 0 < n -> 0 <= x -> 0 <= x / n.
Proof. intros N X. apply Qle_shift_div_l; [exact N | lra]. Qed.

Lemma div_pos (x n : Q) : 0 < n -> 0 < x -> 0 < x / n.
Proof. intros N X. apply Qlt_shift_div_l; [exact N | lra]. Qed.

Lemma div_zero (x n : Q) : x == 0 -> x / n == 0.
Proof. intros X. unfold Qdiv. rewrite X. ring. Qed.

Lemma rsi_seed_step_nonneg (prices : list Q) (acc : Q * Q) (i : nat) :
  both_nonneg acc -> both_nonneg (rsi_seed_step prices acc i).
Proof.
  destruct acc as [g s]. unfold both_nonneg, rsi_seed_step. cbn [fst snd].
  intros [G L].
  set (change := JS.at_index prices i - JS.at_index prices (i - 1)).
  pose proof (Qabs_nonneg change) as AB.
  generalize dependent (Qabs change). clearbody change. intros a AB.
  destruct (JS.gt change 0) eqn:C; cbn [fst snd].
  - apply gt_true in C. split; lra.
  - split; lra.
Qed.

Lemma rsi_smooth_step_nonneg (prices : list Q) (period : nat)
    (acc : Q * Q) (i : nat) :
  (1 <= period)%nat ->
  both_nonneg acc -> both_nonneg (rsi_smooth_step prices period acc i).
Proof.
  intros P. apply num_ge_1 in P.
  destruct acc as [g s]. unfold both_nonneg, rsi_smooth_step. cbn [fst snd].
  intros [G L].
  set (change := JS.at_index prices i - JS.at_index prices (i - 1)).
  pose proof (Qabs_nonneg change) as AB.
  generalize dependent (Qabs change). clearbody change. intros a AB.
  split; apply div_nonneg; try lra.
  - destruct (JS.gt change 0) eqn:C; [apply gt_true in C |]; nra.
  - destruct (JS.lt change 0); nra.
Qed.

(** What the two loops leave, for an invariant kept by both bodies and by
    the division in between. *)
Lemma rsi_averages_invariant (P : Q * Q -> Prop) (prices : list Q) (period : nat) :
  P (fold_left (rsi_seed_step prices) (seq 1 period) (0, 0)) ->
  (forall g s, P (g, s) -> P (g / JS.num period, s / JS.num period)) ->
  (forall acc i, (period + 1 <= i < length prices)%nat ->
     P acc -> P (rsi_smooth_step prices period acc i)) ->
  P (rsi_averages prices period).
Proof.
  intros Seed Div Smooth. unfold rsi_averages.
  destruct (fold_left (rsi_seed_step prices) (seq 1 period) (0, 0)) as [g s].
  apply fold_left_invariant.
  - intros acc i I. apply Smooth. apply in_seq in I. lia.
  - apply Div, Seed.
Qed.

Lemma rsi_averages_nonneg (prices : list Q) (period : nat) :
  (1 <= period)%nat -> both_nonneg (rsi_averages prices period).
Proof.
  intros P. pose proof (num_ge_1 _ P) as N.
  apply rsi_averages_invariant.
  - apply fold_left_invariant.
    + intros a b _. apply rsi_seed_step_nonneg.
    + split; simpl; lra.
  - unfold both_nonneg. simpl. intros g s [G L].
    split; apply div_nonneg; lra.
  - intros acc i _. apply rsi_smooth_step_nonneg, P.
Qed.

Lemma rsi_divisor_zero (avgLoss : Q) : avgLoss == 0 -> rsi_divisor avgLoss = 1.
Proof.
  intros E. unfold rsi_divisor, JS.or_else.
  rewrite (Qeq_eq_bool _ _ E). reflexivity.
Qed.

Lemma rsi_divisor_nonzero (avgLoss : Q) : ~ rsi_divisor avgLoss == 0.
Proof.
  unfold rsi_divisor, JS.or_else. destruct (Qeq_bool avgLoss 0) eqn:E.
  - discriminate.
  - apply Qeq_bool_neq, E.
Qed.

Lemma rsi_divisor_pos (avgLoss : Q) : 0 <= avgLoss -> 0 < rsi_divisor avgLoss.
Proof.
  intros L. pose proof (rsi_divisor_nonzero avgLoss) as N.
  assert (D : 0 <= rsi_divisor avgLoss).
  { unfold rsi_divisor, JS.or_else. destruct (Qeq_bool avgLoss 0); lra. }
  destruct (Qlt_le_dec 0 (rsi_divisor avgLoss)) as [H | H]; [exact H |].
  exfalso. apply N. lra.
Qed.

(** [100 - 100 / (1 + rs)] for a non-negative [rs]. *)
Lemma rsi_formula_range (rs : Q) :
  0 <= rs -> 0 <= 100 - 100 / (1 + rs) /\ 100 - 100 / (1 + rs) < 100.
Proof.
  intros R.
  assert (I : 0 < / (1 + rs)) by (apply Qinv_lt_0_compat; lra).
  assert (M : (1 + rs) * / (1 + rs) == 1) by (apply Qmult_inv_r; lra).
  unfold Qdiv. split; nra.
Qed.

Lemma rsi_of_averages_range (avgs : Q * Q) :
  both_nonneg avgs ->
  0 <= rsi_of_averages avgs /\ rsi_of_averages avgs <= 100.
Proof.
  destruct avgs as [g s]. unfold both_nonneg. simpl. intros [G L].
  destruct (rsi_formula_range (g / rsi_divisor s)) as [A B].
  - apply div_nonneg; [apply rsi_divisor_pos, L | exact G].
  - split; [exact A | lra].
Qed.

Lemma calculateRSI_short (prices : list Q) (period : nat) :
  (length prices < period + 1)%nat -> calculateRSI prices period = 50.
Proof.
  intros L. apply Nat.ltb_lt in L. unfold calculateRSI. rewrite L. reflexivity.
Qed.

Lemma calculateRSI_long (prices : list Q) (period : nat) :
  (period < length prices)%nat ->
  calculateRSI prices period = rsi_of_averages (rsi_averages prices period).
Proof.
  intros L. unfold calculateRSI.
  assert (F : (length prices <? period + 1)%nat = false)
    by (apply Nat.ltb_ge; lia).
  rewrite F. reflexivity.
Qed.

(** C5: for every period of at least 1 the RSI lies in [0,100]; it is the
    neutral 50 on fewer than period+1 prices; when avgLoss is 0 the divisor
    is 1, so RS is avgGain/1, and neither of the two divisions of the
    last lines is by zero. *)
Theorem rsi_in_range (prices : list Q) (period : nat) :
  (1 <= period)%nat ->
  (0 <= calculateRSI prices period /\ calculateRSI prices period <= 100) /\
  ((length prices < period + 1)%nat -> calculateRSI prices period = 50) /\
  (forall avgGain avgLoss, avgLoss == 0 ->
     rsi_divisor avgLoss = 1 /\
     rsi_of_averages (avgGain, avgLoss) = 100 - 100 / (1 + avgGain / 1)) /\
  (forall avgLoss, ~ rsi_divisor avgLoss == 0) /\
  0 < 1 + fst (rsi_averages prices period)
          / rsi_divisor (snd (rsi_averages prices period)).
Proof.
  intros P. pose proof (rsi_averages_nonneg prices period P) as NN.
  split; [| split; [| split; [| split]]].
  - destruct (Nat.lt_ge_cases (length prices) (period + 1)) as [L | L].
    + rewrite (calculateRSI_short _ _ L). split; discriminate.
    + rewrite calculateRSI_long by lia. apply rsi_of_averages_range, NN.
  - apply calculateRSI_short.
  - intros g s E. split; [apply rsi_divisor_zero, E |].
    simpl. rewrite (rsi_divisor_zero s E). reflexivity.
  - apply rsi_divisor_nonzero.
  - destruct NN as [G L].
    assert (0 <= fst (rsi_averages prices period)
                 / rsi_divisor (snd (rsi_averages prices period)))
      by (apply div_nonneg; [apply rsi_divisor_pos, L | exact G]).
    lra.
Qed.

Lemma rsi_in_range_witness :
  0 <= calculateRSI [44; 44.5; 43.75; 44.25; 45] 3 /\
  calculateRSI [44; 44.5; 43.75; 44.25; 45] 3 <= 100.
Proof.
  apply (rsi_in_range [44; 44.5; 43.75; 44.25; 45] 3). lia.
Defined.

(** *** Monotone series *)

Lemma increasing_step (l : list Q) (i : nat) :
  strictly_increasing l -> (1 <= i < length l)%nat ->
  JS.at_index l (i - 1) < JS.at_index l i.
Proof.
  revert i. induction l as [| a t IH]; intros i H [I1 I2]; [simpl in I2; lia |].
  destruct t as [| b t']; [simpl in I2; lia |].
  destruct H as [Hab Ht].
  destruct i as [| [| j]]; [lia | exact Hab |].
  specialize (IH (S j) Ht). simpl length in *.
  replace (S (S j) - 1)%nat with (S j) by lia.
  replace (S j - 1)%nat with j in IH by lia.
  unfold JS.at_index in *. simpl nth at 1. 
  change (nth (S (S j)) (a :: b :: t') 0) with (nth (S j) (b :: t') 0).
  apply IH. lia.
Qed.

Lemma decreasing_step (l : list Q) (i : nat) :
  strictly_decreasing l -> (1 <= i < length l)%nat ->
  JS.at_index l i < JS.at_index l (i - 1).
Proof.
  revert i. induction l as [| a t IH]; intros i H [I1 I2]; [simpl in I2; lia |].
  destruct t as [| b t']; [simpl in I2; lia |].
  destruct H as [Hab Ht].
  destruct i as [| [| j]]; [lia | exact Hab |].
  specialize (IH (S j) Ht). simpl length in *.
  replace (S (S j) - 1)%nat with (S j) by lia.
  replace (S j - 1)%nat with j in IH by lia.
  unfold JS.at_index in *. simpl nth at 2.
  change (nth (S (S j)) (a :: b :: t') 0) with (nth (S j) (b :: t') 0).
  apply IH. lia.
Qed.

(** On a rise the first loop only adds to [gains]. *)
Lemma rsi_seed_step_rise (prices : list Q) (acc : Q * Q) (i : nat) :
  JS.at_index prices (i - 1) < JS.at_index prices i ->
  0 <= fst acc -> snd acc == 0 -> gains_only (rsi_seed_step prices acc i).
Proof.
  destruct acc as [g s]. unfold gains_only, rsi_seed_step. cbn [fst snd].
  intros R G L.
  set (change := JS.at_index prices i - JS.at_index prices (i - 1)).
  assert (C : 0 < change) by (unfold change; lra).
  clearbody change. apply gt_true in C. rewrite C. cbn [fst snd].
  apply gt_true in C. split; [lra | exact L].
Qed.

Lemma rsi_smooth_step_rise (prices : list Q) (period : nat)
    (acc : Q * Q) (i : nat) :
  (1 <= period)%nat ->
  JS.at_index prices (i - 1) < JS.at_index prices i ->
  gains_only acc -> gains_only (rsi_smooth_step prices period acc i).
Proof.
  intros P R. apply num_ge_1 in P.
  destruct acc as [g s]. unfold gains_only, rsi_smooth_step. cbn [fst snd].
  intros [G L].
  set (change := JS.at_index prices i - JS.at_index prices (i - 1)).
  assert (C : 0 < change) by (unfold change; lra).
  clearbody change.
  assert (C1 : JS.gt change 0 = true) by (apply gt_true; exact C).
  assert (C2 : JS.lt change 0 = false) by (apply lt_false; lra).
  rewrite C1, C2. split.
  - apply div_pos; [lra | nra].
  - apply div_zero. rewrite L. ring.
Qed.

(** On a fall neither loop touches the gain. *)
Lemma rsi_seed_step_fall (prices : list Q) (acc : Q * Q) (i : nat) :
  JS.at_index prices i < JS.at_index prices (i - 1) ->
  no_gain acc -> no_gain (rsi_seed_step prices acc i).
Proof.
  destruct acc as [g s]. unfold no_gain, rsi_seed_step. cbn [fst snd].
  intros F G.
  set (change := JS.at_index prices i - JS.at_index prices (i - 1)).
  assert (C : JS.gt change 0 = false) by (apply gt_false; unfold change; lra).
  rewrite C. exact G.
Qed.

Lemma rsi_smooth_step_fall (prices : list Q) (period : nat)
    (acc : Q * Q) (i : nat) :
  JS.at_index prices i < JS.at_index prices (i - 1) ->
  no_gain acc -> no_gain (rsi_smooth_step prices period acc i).
Proof.
  destruct acc as [g s]. unfold no_gain, rsi_smooth_step. cbn [fst snd].
  intros F G.
  set (change := JS.at_index prices i - JS.at_index prices (i - 1)).
  assert (C : JS.gt change 0 = false) by (apply gt_false; unfold change; lra).
  rewrite C. apply div_zero. rewrite G. ring.
Qed.

Lemma rsi_averages_rise (prices : list Q) (period : nat) :
  (1 <= period)%nat -> (period < length prices)%nat ->
  strictly_increasing prices -> gains_only (rsi_averages prices period).
Proof.
  intros P L I. pose proof (num_ge_1 _ P) as N.
  apply rsi_averages_invariant.
  - destruct period as [| p]; [lia |]. cbn [seq fold_left].
    apply fold_left_invariant.
    + intros acc i In2 [G Z]. apply in_seq in In2.
      apply rsi_seed_step_rise; [apply increasing_step; [exact I | lia] | lra | exact Z].
    + apply rsi_seed_step_rise;
        [apply increasing_step; [exact I | lia] | apply Qle_refl | reflexivity].
  - unfold gains_only. cbn [fst snd]. intros g s [G Z].
    split; [apply div_pos; lra | apply div_zero, Z].
  - intros acc i B. apply rsi_smooth_step_rise; [exact P |].
    apply increasing_step; [exact I | lia].
Qed.

Lemma rsi_averages_fall (prices : list Q) (period : nat) :
  (period < length prices)%nat ->
  strictly_decreasing prices -> no_gain (rsi_averages prices period).
Proof.
  intros L D.
  apply rsi_averages_invariant.
  - apply fold_left_invariant.
    + intros acc i In1. apply in_seq in In1.
      apply rsi_seed_step_fall. apply decreasing_step; [exact D | lia].
    + reflexivity.
  - unfold no_gain. cbn [fst snd]. intros g s G. apply div_zero, G.
  - intros acc i B. apply rsi_smooth_step_fall.
    apply decreasing_step; [exact D | lia].
Qed.

(** C6 as stated fails: on the rising series 1, 2, ..., 15 the RSI of
    period 14 is 50, not 100. *)
Lemma rsi_rising_ramp_is_50 :
  strictly_increasing (ramp 1 1 15) /\
  (14 < length (ramp 1 1 15))%nat /\
  calculateRSI (ramp 1 1 15) 14 == 50 /\
  ~ calculateRSI (ramp 1 1 15) 14 == 100.
Proof.
  split; [| split; [simpl; lia | split]].
  - simpl. repeat split.
  - vm_compute. reflexivity.
  - vm_compute. discriminate.
Qed.

(** C6, amended: on a strictly increasing series longer than the period
    (period at least 1) avgLoss is 0, so RS is avgGain / 1, and the RSI is
    100 - 100 / (1 + avgGain) for the positive smoothed gain avgGain: a
    value of [0, 100] set by the size of the gains, which need not be 100
    (it is 50 on the series above); on a strictly decreasing one the RSI
    is 0. *)
Theorem rsi_monotone_series (prices : list Q) (period : nat) :
  (1 <= period)%nat -> (period < length prices)%nat ->
  (strictly_increasing prices ->
     snd (rsi_averages prices period) == 0 /\
     0 < fst (rsi_averages prices period) /\
     calculateRSI prices period
       == 100 - 100 / (1 + fst (rsi_averages prices period)) /\
     0 <= calculateRSI prices period /\ calculateRSI prices period <= 100) /\
  (strictly_decreasing prices -> calculateRSI prices period == 0).
Proof.
  intros P L. rewrite (calculateRSI_long _ _ L). split.
  - intros I. destruct (rsi_averages_rise _ _ P L I) as [G Z].
    destruct (rsi_averages prices period) as [g s]. cbn [fst snd] in *.
    assert (E : rsi_of_averages (g, s) == 100 - 100 / (1 + g)).
    { simpl. rewrite (rsi_divisor_zero s Z).
      assert (D : g / 1 == g) by (field).
      rewrite D. reflexivity. }
    split; [exact Z |]. split; [exact G |]. split; [exact E |].
    rewrite E. destruct (rsi_formula_range g) as [A B]; [lra |].
    split; lra.
  - intros D. pose proof (rsi_averages_fall _ _ L D) as G.
    destruct (rsi_averages prices period) as [g s]. unfold no_gain in G.
    cbn [fst] in G. simpl.
    assert (R : g / rsi_divisor s == 0) by (apply div_zero, G).
    rewrite R. field.
Qed.

Lemma rsi_monotone_series_witness :
  calculateRSI (ramp 1 1 15) 14
    == 100 - 100 / (1 + fst (rsi_averages (ramp 1 1 15) 14)) /\
  calculateRSI (ramp 15 (-1) 15) 14 == 0.
Proof.
  destruct (rsi_monotone_series (ramp 1 1 15) 14) as [U _];
    [lia | simpl; lia |].
  destruct (rsi_monotone_series (ramp 15 (-1) 15) 14) as [_ D];
    [lia | simpl; lia |].
  split.
  - apply U. simpl. repeat split.
  - apply D. simpl. repeat split.
Defined.

(** ** Bollinger bands *)

Lemma last_Forall (P : Q -> Prop) (l : list Q) (d : Q) :
  Forall P l -> P d -> P (last l d).
Proof.
  intros F D. induction F as [| x l Px F IH]; [exact D |].
  destruct l as [| y l']; [exact Px | exact IH].
Qed.

Lemma sma_short_nonneg (prices : list Q) (period : nat) :
  Forall (fun p => 0 <= p) prices -> (length prices < period)%nat ->
  0 <= calculateSMA prices period.
Proof.
  intros F L. apply Nat.ltb_lt in L. unfold calculateSMA. rewrite L.
  rewrite last_or_zero.
  apply (last_Forall (fun p => 0 <= p)); [exact F | apply Qle_refl].
Qed.

Lemma bollinger_short (sq : Q -> Q) (prices : list Q) (period : nat) (m : Q) :
  (length prices < period)%nat ->
  calculateBollingerBands sq prices period m =
    mkBollinger (calculateSMA prices period * 1.02)
                (calculateSMA prices period)
                (calculateSMA prices period * 0.98).
Proof.
  intros L. apply Nat.ltb_lt in L. unfold calculateBollingerBands.
  rewrite L. reflexivity.
Qed.

Lemma bollinger_long (sq : Q -> Q) (prices : list Q) (period : nat) (m : Q) :
  (period <= length prices)%nat ->
  calculateBollingerBands sq prices period m =
    mkBollinger
      (calculateSMA prices period
       + sq (window_variance (JS.slice_last prices period)
               (calculateSMA prices period) period) * m)
      (calculateSMA prices period)
      (calculateSMA prices period
       - sq (window_variance (JS.slice_last prices period)
               (calculateSMA prices period) period) * m).
Proof.
  intros L. apply Nat.ltb_ge in L. unfold calculateBollingerBands.
  rewrite L. reflexivity.
Qed.

(** The fold of the source adds from the left, starting at zero. *)
Lemma reduce_sum_total (f : Q -> Q) (l : list Q) :
  JS.reduce_sum f l = total (map f l).
Proof.
  unfold JS.reduce_sum, total. generalize 0.
  induction l as [| x l IH]; intros a; [reflexivity |].
  cbn [fold_left map sum_from]. apply IH.
Qed.

(** From [period] prices on, the window of the source is the trailing one,
    the middle band is its mean and the variance taken is its population
    variance. *)
Lemma window_is_population (prices : list Q) (period : nat) :
  (1 <= period <= length prices)%nat ->
  JS.slice_last prices period = trailing_window prices period /\
  length (trailing_window prices period) = period /\
  calculateSMA prices period = mean (trailing_window prices period) /\
  window_variance (JS.slice_last prices period)
      (calculateSMA prices period) period
    = population_variance (trailing_window prices period).
Proof.
  intros [P L].
  assert (S1 : JS.slice_last prices period = trailing_window prices period).
  { unfold JS.slice_last, trailing_window. destruct period; [lia | reflexivity]. }
  assert (S2 : length (trailing_window prices period) = period).
  { unfold trailing_window. rewrite length_skipn. lia. }
  assert (S3 : calculateSMA prices period = mean (trailing_window prices period)).
  { unfold calculateSMA, mean, size.
    assert (F : (length prices <? period)%nat = false) by (apply Nat.ltb_ge; exact L).
    rewrite F, S1, S2. cbv zeta. rewrite reduce_sum_total, map_id. reflexivity. }
  repeat split; try assumption.
  unfold window_variance, population_variance, size.
  rewrite S1, S3, S2, reduce_sum_total. reflexivity.
Qed.

Lemma bollinger_ordered (sq : Q -> Q) (prices : list Q) (period : nat) (m : Q) :
  (forall x, 0 <= sq x) -> 0 <= m ->
  Forall (fun p => 0 <= p) prices ->
  bb_lower (calculateBollingerBands sq prices period m)
    <= bb_middle (calculateBollingerBands sq prices period m) /\
  bb_middle (calculateBollingerBands sq prices period m)
    <= bb_upper (calculateBollingerBands sq prices period m).
Proof.
  intros SQ M F.
  destruct (Nat.lt_ge_cases (length prices) period) as [L | L].
  - rewrite (bollinger_short sq prices period m L). simpl.
    pose proof (sma_short_nonneg prices period F L) as N.
    split; lra.
  - rewrite (bollinger_long sq prices period m L). simpl.
    pose proof (SQ (window_variance (JS.slice_last prices period)
                      (calculateSMA prices period) period)) as N.
    split; nra.
Qed.

(** C7: on every non-empty list of (non-negative) prices, with period 20
    and multiplier 2, lower <= middle <= upper; below 20 prices the bands
    are the synthetic middle * 1.02, middle, middle * 0.98 around
    middle = SMA(prices, 20); from 20 prices on they are the middle plus
    and minus twice the square root of the population variance of the
    trailing 20 prices. *)
Theorem bollinger_bands_spec (Math_sqrt : Q -> Q) (prices : list Q) :
  (forall x, 0 <= Math_sqrt x) ->
  prices <> [] ->
  Forall (fun p => 0 <= p) prices ->
  (bb_lower (calculateBollingerBands_default Math_sqrt prices)
     <= bb_middle (calculateBollingerBands_default Math_sqrt prices) /\
   bb_middle (calculateBollingerBands_default Math_sqrt prices)
     <= bb_upper (calculateBollingerBands_default Math_sqrt prices)) /\
  bb_middle (calculateBollingerBands_default Math_sqrt prices)
    = calculateSMA prices 20 /\
  ((length prices < 20)%nat ->
     calculateBollingerBands_default Math_sqrt prices =
       mkBollinger (calculateSMA prices 20 * 1.02)
                   (calculateSMA prices 20)
                   (calculateSMA prices 20 * 0.98)) /\
  ((20 <= length prices)%nat ->
     calculateSMA prices 20 = mean (trailing_window prices 20) /\
     calculateBollingerBands_default Math_sqrt prices =
       mkBollinger
         (calculateSMA prices 20
          + Math_sqrt (population_variance (trailing_window prices 20)) * 2)
         (calculateSMA prices 20)
         (calculateSMA prices 20
          - Math_sqrt (population_variance (trailing_window prices 20)) * 2)).
Proof.
  intros SQ _ F. unfold calculateBollingerBands_default.
  split; [apply bollinger_ordered; [exact SQ | discriminate | exact F] |].
  split; [| split].
  - destruct (Nat.lt_ge_cases (length prices) 20) as [L | L].
    + rewrite (bollinger_short _ _ _ _ L). reflexivity.
    + rewrite (bollinger_long _ _ _ _ L). reflexivity.
  - apply bollinger_short.
  - intros L. rewrite (bollinger_long _ _ _ _ L).
    destruct (window_is_population prices 20) as (_ & _ & S3 & S4); [lia |].
    rewrite S4. split; [exact S3 | reflexivity].
Qed.

Lemma sqrt_down_nonneg (x : Q) : 0 <= sqrt_down x.
Proof.
  unfold sqrt_down, Qle. simpl. rewrite Z.mul_1_r. apply Z.sqrt_nonneg.
Qed.

Lemma bollinger_bands_spec_witness :
  bb_lower (calculateBollingerBands_default sqrt_down (ramp 100 (1 # 2) 25))
    <= bb_middle (calculateBollingerBands_default sqrt_down (ramp 100 (1 # 2) 25)) /\
  bb_middle (calculateBollingerBands_default sqrt_down (ramp 100 (1 # 2) 25))
    <= bb_upper (calculateBollingerBands_default sqrt_down (ramp 100 (1 # 2) 25)).
Proof.
  apply (bollinger_bands_spec sqrt_down (ramp 100 (1 # 2) 25)).
  - exact sqrt_down_nonneg.
  - discriminate.
  - simpl. repeat constructor; discriminate.
Defined.

(** The sign of the prices matters below the period: around a negative
    last value the synthetic band is upside down. *)
Remark bollinger_negative_value :
  bb_upper (calculateBollingerBands_default sqrt_down [-1])
    < bb_middle (calculateBollingerBands_default sqrt_down [-1]).
Proof. vm_compute. reflexivity. Qed.

(** ** Array reads stay in range *)

Lemma at_index_defined (xs : list Q) (i : nat) :
  (i < length xs)%nat -> nth_error xs i = Some (JS.at_index xs i).
Proof. intros I. unfold JS.at_index. apply nth_error_nth'. exact I. Qed.

(** Every index the two loops of [calculateRSI] read, [i] and [i - 1], is
    one of the array once the guard [length >= period + 1] has passed. *)
Lemma rsi_reads_in_range (prices : list Q) (period i : nat) :
  (period < length prices)%nat ->
  In i (seq 1 period ++ seq (period + 1) (length prices - (period + 1))) ->
  (i - 1 < length prices)%nat /\ (i < length prices)%nat.
Proof.
  intros L I. apply in_app_or in I.
  destruct I as [I | I]; apply in_seq in I; lia.
Qed.

(** The same for [calculateEMA] with a period of at least 1: the seed
    [prices[0]] and every [prices[i]] of the loop exist. *)
Lemma ema_reads_in_range (prices : list Q) (period i : nat) :
  (1 <= period <= length prices)%nat ->
  In i (0%nat :: seq 1 (length prices - 1)) -> (i < length prices)%nat.
Proof.
  intros [P L] [I | I]; [lia |]. apply in_seq in I. lia.
Qed.

(** ** Worked examples *)

Example calculateSMA_window : calculateSMA [10; 20; 30; 40] 2 == 35.
Proof. reflexivity. Qed.

Example calculateEMA_two_steps : calculateEMA [10; 20; 30] 3 == 22.5.
Proof. reflexivity. Qed.

Example calculateRSI_mixed :
  calculateRSI [44; 44.5; 43.75; 44.25; 45] 3 == 100 - 100 / (1 + 17 / 6).
Proof. reflexivity. Qed.

Example toFixed_examples :
  toFixed 50 1 = "50.0"%string /\
  toFixed 119.5 2 = "119.50"%string /\
  toFixed (1 # 3) 2 = "0.33"%string /\
  toFixed 0.05 1 = "0.1"%string /\
  toFixed (-0.04) 1 = "-0.0"%string /\
  toFixed (-12.345) 2 = "-12.35"%string.
Proof. vm_compute. repeat split. Qed.

Example risk_of_examples :
  risk_of 5.5 = High /\ risk_of (-6) = High /\ risk_of 5 = Medium /\
  risk_of (-2.5) = Medium /\ risk_of 2 = Low /\ risk_of 0 = Low.
Proof. vm_compute. repeat split. Qed.

(** A thirty-day rising series quoted at 105.5: too short for the 50- and
    200-day averages, so only the RSI rule could move the score; the RSI
    is 50 and the rating stays Hold. *)
Example analyse_thirty_days :
  let data := mkStockInput 105.5 1.2 1000 120 90 in
  let ti := technicalIndicators_of sqrt_down (ramp 100 1 30) 1000 900 in
  let r := run (analyse data ti) (fun _ => 0.5) in
  overallRating (fst r) = Hold /\
  technicalScore (fst r) = 50%Z /\
  fundamentalScore (fst r) = 55%Z /\
  marketScore (fst r) = 63%Z /\
  keyFactors (fst r) =
    [ "RSI at 50.0 indicates neutral conditions";
      "Price is below 20-day moving average (119.50)";
      "Current trend shows neutral momentum based on technical analysis";
      "Volume analysis suggests increased institutional interest";
      "52-week range positioning indicates 51.7% of range" ]%string /\
  nextDay (snd r) == 105.5 /\
  pred_trend (snd r) = neutral.
Proof. vm_compute. repeat split. Qed.

(** ** The two failing series in IEEE doubles *)

(** Twenty-six prices of 100: both EMAs are exactly 100. *)
Example double_macd_constant_series :
  Double.macdLine (repeat 100%float 26) = 0%float.
Proof. vm_compute. reflexivity. Qed.

(** The series 1, 2, ..., 15 with period 14: exactly 50. *)
Example double_rsi_rising_ramp :
  Double.calculateRSI (Double.ramp 1 1 15) 14 = 50%float.
Proof. vm_compute. reflexivity. Qed.

(** * Further properties of the indicator library *)

Lemma slice_last_length (l : list Q) (n : nat) :
  (1 <= n <= length l)%nat -> length (JS.slice_last l n) = n.
Proof.
  intros [A B]. unfold JS.slice_last. destruct n; [lia |].
  rewrite length_skipn. lia.
Qed.

(** ** MACD *)



(** ** RSI *)

Lemma non_increasing_step (l : list Q) (i : nat) :
  non_increasing l -> (1 <= i < length l)%nat ->
  JS.at_index l i <= JS.at_index l (i - 1).
Proof.
  revert i. induction l as [| a t IH]; intros i H [I1 I2]; [simpl in I2; lia |].
  destruct t as [| b t']; [simpl in I2; lia |].
  destruct H as [Hab Ht].
  destruct i as [| [| j]]; [lia | exact Hab |].
  specialize (IH (S j) Ht). simpl length in *.
  replace (S (S j) - 1)%nat with (S j) by lia.
  replace (S j - 1)%nat with j in IH by lia.
  unfold JS.at_index in *. simpl nth at 2.
  change (nth (S (S j)) (a :: b :: t') 0) with (nth (S j) (b :: t') 0).
  apply IH. lia.
Qed.

Lemma rsi_seed_step_no_rise (prices : list Q) (acc : Q * Q) (i : nat) :
  JS.at_index prices i <= JS.at_index prices (i - 1) ->
  no_gain acc -> no_gain (rsi_seed_step prices acc i).
Proof.
  destruct acc as [g s]. unfold no_gain, rsi_seed_step. cbn [fst snd].
  intros F G.
  set (change := JS.at_index prices i - JS.at_index prices (i - 1)).
  assert (C : JS.gt change 0 = false) by (apply gt_false; unfold change; lra).
  rewrite C. exact G.
Qed.

Lemma rsi_smooth_step_no_rise (prices : list Q) (period : nat)
    (acc : Q * Q) (i : nat) :
  JS.at_index prices i <= JS.at_index prices (i - 1) ->
  no_gain acc -> no_gain (rsi_smooth_step prices period acc i).
Proof.
  destruct acc as [g s]. unfold no_gain, rsi_smooth_step. cbn [fst snd].
  intros F G.
  set (change := JS.at_index prices i - JS.at_index prices (i - 1)).
  assert (C : JS.gt change 0 = false) by (apply gt_false; unfold change; lra).
  rewrite C. apply div_zero. rewrite G. ring.
Qed.

Lemma rsi_no_gain_is_zero (prices : list Q) (period : nat) :
  (1 <= period)%nat -> (period < length prices)%nat -> non_increasing prices ->
  calculateRSI prices period == 0.
Proof.
  intros _ L D. rewrite (calculateRSI_long _ _ L).
  assert (G : no_gain (rsi_averages prices period)).
  { apply rsi_averages_invariant.
    - apply fold_left_invariant.
      + intros acc i In1. apply in_seq in In1.
        apply rsi_seed_step_no_rise. apply non_increasing_step; [exact D | lia].
      + reflexivity.
    - unfold no_gain. cbn [fst snd]. intros g s G. apply div_zero, G.
    - intros acc i B. apply rsi_smooth_step_no_rise.
      apply non_increasing_step; [exact D | lia]. }
  destruct (rsi_averages prices period) as [g s]. unfold no_gain in G.
  cbn [fst] in G. simpl.
  assert (R : g / rsi_divisor s == 0) by (apply div_zero, G).
  rewrite R. field.
Qed.

Lemma non_increasing_repeat (c : Q) (n : nat) : non_increasing (repeat c n).
Proof.
  induction n as [| n IH]; [exact I |].
  destruct n as [| n]; [exact I |].
  split; [apply Qle_refl | exact IH].
Qed.

(** X6: for a period of at least 1, on a series longer than the period
    that never rises the RSI is 0; a flat series is one, so a price that
    does not move at all reads as fully oversold. *)
Theorem rsi_zero_when_never_rising (prices : list Q) (period : nat) :
  (1 <= period)%nat -> (period < length prices)%nat -> non_increasing prices ->
  calculateRSI prices period == 0.
Proof. apply rsi_no_gain_is_zero. Qed.

Lemma rsi_zero_when_never_rising_witness :
  calculateRSI (repeat 250 20) 14 == 0.
Proof.
  apply (rsi_zero_when_never_rising (repeat 250 20) 14).
  - lia.
  - simpl. lia.
  - apply non_increasing_repeat.
Defined.

(** ** Bollinger bands *)

Lemma square_nonneg (x : Q) : 0 <= x ^ 2.
Proof. change (x ^ 2) with (x * x). nra. Qed.

(** X8: for a period of at least 1 the variance handed to [Math.sqrt] is
    never negative, so the standard deviation of the bands is always the
    root of a non-negative number. *)
Theorem bollinger_variance_nonneg (prices : list Q) (period : nat) :
  (1 <= period)%nat ->
  0 <= window_variance (JS.slice_last prices period)
         (calculateSMA prices period) period.
Proof.
  intros P. apply num_ge_1 in P. unfold window_variance.
  apply div_nonneg; [lra |].
  unfold JS.reduce_sum.
  apply (fold_left_invariant (fun s => 0 <= s)); [| apply Qle_refl].
  intros s x _ S.
  pose proof (square_nonneg (x - calculateSMA prices period)) as N.
  generalize dependent ((x - calculateSMA prices period) ^ 2). intros y N. lra.
Qed.

Lemma bollinger_variance_nonneg_witness :
  0 <= window_variance (JS.slice_last (ramp 100 (1 # 2) 25) 20)
         (calculateSMA (ramp 100 (1 # 2) 25) 20) 20.
Proof. apply (bollinger_variance_nonneg (ramp 100 (1 # 2) 25) 20). lia. Defined.

(** * Further properties of the rating engine *)

Lemma Qabs_sign (x : Q) :
  (0 <= x /\ Qabs x == x) \/ (x <= 0 /\ Qabs x == - x).
Proof.
  destruct (Qlt_le_dec x 0) as [N | P].
  - right. split; [lra | apply Qabs_neg; lra].
  - left. split; [exact P | apply Qabs_pos, P].
Qed.

Lemma risk_of_cases (changePercent : Q) :
  (risk_of changePercent = High <-> 5 < Qabs changePercent) /\
  (risk_of changePercent = Medium
     <-> 2 < Qabs changePercent /\ Qabs changePercent <= 5) /\
  (risk_of changePercent = Low <-> Qabs changePercent <= 2).
Proof.
  unfold risk_of. pose proof (Qabs_sign changePercent) as A.
  generalize dependent (Qabs changePercent). intros a A.
  js_cases; repeat split; intros; try discriminate; try reflexivity;
    destruct A as [[A1 A2] | [A1 A2]]; lra.
Qed.

(** X9: the risk level is fixed by the size of the day's percent change:
    High exactly above 5, Medium exactly above 2 and up to 5, Low exactly
    up to 2, the two signs alike. *)
Theorem risk_bands (changePercent : Q) :
  (risk_of changePercent = High <-> 5 < Qabs changePercent) /\
  (risk_of changePercent = Medium
     <-> 2 < Qabs changePercent /\ Qabs changePercent <= 5) /\
  (risk_of changePercent = Low <-> Qabs changePercent <= 2).
Proof. apply risk_of_cases. Qed.

Lemma aligned_of_score (s : Q) :
  In s score_values ->
  In (rating_of s, label_of s, prediction_trend s) aligned_outcomes.
Proof.
  unfold score_values. simpl.
  intros H; repeat (destruct H as [H | H]; [subst s; vm_compute; tauto | ]).
  contradiction.
Qed.

(** X10: although the rating bands (80/65/35/20), the label bands
    (80/60/40/20) and the trend bands of the prediction (60/40) differ, the
    three never disagree on a result of the engine: rating, sentiment
    label and prediction trend are always one of Strong Buy / Very
    Positive / bullish, Buy / Positive / bullish, Hold / Neutral / neutral,
    Sell / Negative / bearish, Strong Sell / Very Negative / bearish. *)
Theorem rating_label_trend_aligned
    (data : StockInput) (ti : TechnicalIndicators) (g : Rng) :
  In (overallRating (fst (run (analyse data ti) g)),
      label (sentiment (fst (run (analyse data ti) g))),
      pred_trend (snd (run (analyse data ti) g)))
     aligned_outcomes.
Proof.
  rewrite analyse_run. cbn [fst snd]. rewrite computePrediction_run.
  rewrite generateAIAnalysis_run. cbv zeta. cbn [overallRating sentiment label
    score pred_trend].
  apply aligned_of_score, raw_technicalScore_values.
Qed.


Lemma rating_run (data : StockInput) (ti : TechnicalIndicators) (g : Rng) :
  overallRating (run (generateAIAnalysis data ti) g)
    = rating_of (raw_technicalScore data ti).
Proof. rewrite generateAIAnalysis_run. reflexivity. Qed.



(** ** The perturbed scores and the prediction under real draws *)

Lemma round_lower (x : Q) (z : Z) : inject_Z z <= x + (1 # 2) -> (z <= JS.round x)%Z.
Proof.
  intros H. unfold JS.round. rewrite <- (Qfloor_Z z). apply Qfloor_resp_le, H.
Qed.

Lemma perturbed_scores_run (data : StockInput) (ti : TechnicalIndicators)
    (g : Rng) :
  fundamentalScore (run (generateAIAnalysis data ti) g)
    = JS.round (raw_technicalScore data ti * 0.9 + g 0%nat * 20) /\
  marketScore (run (generateAIAnalysis data ti) g)
    = JS.round (raw_technicalScore data ti * 1.1 + g 1%nat * 15).
Proof. rewrite generateAIAnalysis_run. split; reflexivity. Qed.

(** X13: whenever the rating is Strong Buy, marketScore is at least 105
    under any draws in [0, 1): it leaves the 0 .. 100 scale on which the
    analysis card shows it. *)
Theorem market_score_leaves_scale
    (data : StockInput) (ti : TechnicalIndicators) (g : Rng) :
  unit_draws g ->
  overallRating (run (generateAIAnalysis data ti) g) = StrongBuy ->
  (105 <= marketScore (run (generateAIAnalysis data ti) g))%Z.
Proof.
  intros U. rewrite rating_run.
  destruct (perturbed_scores_run data ti g) as [_ M]. rewrite M.
  pose proof (raw_technicalScore_values data ti) as V.
  generalize dependent (raw_technicalScore data ti). intros s _ V R.
  assert (E : 95 <= s).
  { unfold score_values in V. simpl in V.
    repeat (destruct V as [V | V]; [subst s; first [discriminate R | discriminate] |]).
    contradiction. }
  destruct (U 1%nat) as [U1 _]. generalize dependent (g 1%nat). intros r1 U1.
  apply round_lower. change (inject_Z 105) with 105. lra.
Qed.

Lemma market_score_leaves_scale_witness :
  (105 <= marketScore
            (run (generateAIAnalysis (quote 4) (snapshot 20 3 2 1))
                 (fun _ => 0.25%Q)))%Z.
Proof.
  apply (market_score_leaves_scale (quote 4) (snapshot 20 3 2 1) (fun _ => 0.25)).
  - intros n. split; [discriminate | reflexivity].
  - reflexivity.
Defined.

(** ** What the length and the shape of the history decide *)

Lemma gt_irrefl (a b : Q) : a == b -> JS.gt a b = false.
Proof. intros E. apply gt_false. lra. Qed.

Lemma lt_irrefl (a b : Q) : a == b -> JS.lt a b = false.
Proof. intros E. apply lt_false. lra. Qed.

(** Without a strict order between the 50- and the 200-day average the
    trend rule is silent and the score is the RSI rule's alone. *)
Lemma scoring_without_trend (data : StockInput) (ti : TechnicalIndicators) :
  sma50 ti == sma200 ti ->
  scoring data ti =
    (if JS.lt (rsi ti) 30 then (50 + 20, bullish)
     else if JS.gt (rsi ti) 70 then (50 - 20, bearish)
     else (50, neutral)).
Proof.
  intros E. rewrite scoring_cases. unfold trend_rule, uptrend, downtrend.
  rewrite (gt_irrefl _ _ E), (lt_irrefl _ _ E), !andb_false_r.
  destruct (JS.lt (rsi ti) 30); [| destruct (JS.gt (rsi ti) 70)]; reflexivity.
Qed.

Lemma sma_short_same (closes : list Q) (p q : nat) :
  (length closes < p)%nat -> (length closes < q)%nat ->
  calculateSMA closes p = calculateSMA closes q.
Proof.
  intros A B. apply Nat.ltb_lt in A. apply Nat.ltb_lt in B.
  unfold calculateSMA. rewrite A, B. reflexivity.
Qed.

Lemma short_history_scores
    (Math_sqrt : Q -> Q) (closes : list Q) (vol avgVol : Q)
    (data : StockInput) :
  (length closes < 50)%nat ->
  (raw_technicalScore data (technicalIndicators_of Math_sqrt closes vol avgVol) = 30
   \/ raw_technicalScore data (technicalIndicators_of Math_sqrt closes vol avgVol) = 50
   \/ raw_technicalScore data (technicalIndicators_of Math_sqrt closes vol avgVol) = 70) /\
  (rating_of (raw_technicalScore data
                (technicalIndicators_of Math_sqrt closes vol avgVol)) = Sell
   \/ rating_of (raw_technicalScore data
                   (technicalIndicators_of Math_sqrt closes vol avgVol)) = Hold
   \/ rating_of (raw_technicalScore data
                   (technicalIndicators_of Math_sqrt closes vol avgVol)) = Buy).
Proof.
  intros L. unfold raw_technicalScore.
  rewrite scoring_without_trend.
  - destruct (JS.lt _ 30); [| destruct (JS.gt _ 70)]; cbn [fst];
      (split; [vm_compute | vm_compute]; tauto).
  - cbn [sma50 sma200 technicalIndicators_of].
    rewrite (sma_short_same closes 50 200) by lia. reflexivity.
Qed.

(** X15: a history of fewer than 50 closes cannot produce a strong
    rating: the 50- and the 200-day averages both fall back to the last
    close, the trend rule never fires, the score is 30, 50 or 70 and the
    rating is Sell, Hold or Buy, whatever the quote and the draws. *)
Theorem short_history_no_strong_rating
    (Math_sqrt : Q -> Q) (closes : list Q) (vol avgVol : Q)
    (data : StockInput) (g : Rng) :
  (length closes < 50)%nat ->
  (raw_technicalScore data (technicalIndicators_of Math_sqrt closes vol avgVol) = 30
   \/ raw_technicalScore data (technicalIndicators_of Math_sqrt closes vol avgVol) = 50
   \/ raw_technicalScore data (technicalIndicators_of Math_sqrt closes vol avgVol) = 70) /\
  (overallRating
     (run (generateAIAnalysis data
             (technicalIndicators_of Math_sqrt closes vol avgVol)) g) = Sell
   \/ overallRating
        (run (generateAIAnalysis data
                (technicalIndicators_of Math_sqrt closes vol avgVol)) g) = Hold
   \/ overallRating
        (run (generateAIAnalysis data
                (technicalIndicators_of Math_sqrt closes vol avgVol)) g) = Buy).
Proof.
  intros L. rewrite rating_run. apply short_history_scores, L.
Qed.

Lemma short_history_no_strong_rating_witness :
  overallRating
    (run (generateAIAnalysis (quote 130)
            (technicalIndicators_of sqrt_down (ramp 100 1 30) 0 0))
         (fun _ => 0.5)) = Sell
  \/ overallRating
       (run (generateAIAnalysis (quote 130)
               (technicalIndicators_of sqrt_down (ramp 100 1 30) 0 0))
            (fun _ => 0.5)) = Hold
  \/ overallRating
       (run (generateAIAnalysis (quote 130)
               (technicalIndicators_of sqrt_down (ramp 100 1 30) 0 0))
            (fun _ => 0.5)) = Buy.
Proof.
  apply (short_history_no_strong_rating sqrt_down (ramp 100 1 30) 0 0
           (quote 130) (fun _ => 0.5)).
  simpl. lia.
Defined.

(** X16: a history of 15 to 49 closes that are all the same price is
    rated Buy with score 70 and a bullish prediction trend, whatever the
    quote and the draws: the flat series has RSI 0, which the RSI rule
    reads as oversold, and below 50 closes the trend rule stays silent. *)
Theorem flat_history_rated_buy
    (Math_sqrt : Q -> Q) (c : Q) (n : nat) (vol avgVol : Q)
    (data : StockInput) (g : Rng) :
  (15 <= n < 50)%nat ->
  rsi (technicalIndicators_of Math_sqrt (repeat c n) vol avgVol) == 0 /\
  raw_technicalScore data
    (technicalIndicators_of Math_sqrt (repeat c n) vol avgVol) = 50 + 20 /\
  overallRating
    (fst (run (analyse data
                 (technicalIndicators_of Math_sqrt (repeat c n) vol avgVol)) g))
    = Buy /\
  pred_trend
    (snd (run (analyse data
                 (technicalIndicators_of Math_sqrt (repeat c n) vol avgVol)) g))
    = bullish.
Proof.
  intros [N N'].
  assert (R : rsi (technicalIndicators_of Math_sqrt (repeat c n) vol avgVol) == 0).
  { cbn [rsi technicalIndicators_of]. unfold calculateRSI_default.
    apply rsi_no_gain_is_zero; [lia | rewrite repeat_length; lia |].
    apply non_increasing_repeat. }
  assert (S : scoring data
                (technicalIndicators_of Math_sqrt (repeat c n) vol avgVol)
              = (50 + 20, bullish)).
  { rewrite scoring_without_trend.
    - assert (L : JS.lt (rsi (technicalIndicators_of Math_sqrt (repeat c n)
                                 vol avgVol)) 30 = true)
        by (apply lt_true; rewrite R; reflexivity).
      rewrite L. reflexivity.
    - cbn [sma50 sma200 technicalIndicators_of].
      rewrite (sma_short_same (repeat c n) 50 200)
        by (rewrite repeat_length; lia).
      reflexivity. }
  split; [exact R |].
  split; [unfold raw_technicalScore; rewrite S; reflexivity |].
  rewrite analyse_run. cbn [fst snd]. rewrite computePrediction_run.
  rewrite generateAIAnalysis_run. unfold raw_technicalScore. rewrite S.
  split; reflexivity.
Qed.

Lemma flat_history_rated_buy_witness :
  overallRating
    (fst (run (analyse (quote 250)
                 (technicalIndicators_of sqrt_down (repeat 250 30) 0 0))
              (fun _ => 0.5))) = Buy.
Proof.
  apply (flat_history_rated_buy sqrt_down 250 30 0 0 (quote 250) (fun _ => 0.5)).
  lia.
Defined.

(** * Properties of the fetch layer *)

(** ** The quote *)

Lemma truthy_some (x : Q) : truthy (Some x) = true <-> ~ x == 0.
Proof.
  simpl. rewrite negb_true_iff. split; intros H.
  - apply Qeq_bool_neq, H.
  - destruct (Qeq_bool x 0) eqn:E; [| reflexivity].
    exfalso. apply H, Qeq_bool_eq, E.
Qed.

Lemma truthy_some_false (x : Q) : truthy (Some x) = false <-> x == 0.
Proof.
  simpl. rewrite negb_false_iff. apply Qeq_bool_iff.
Qed.

Lemma or_else_truthy (v : option Q) (x d : Q) :
  v = Some x -> truthy v = true -> JS.or_else v d = x.
Proof.
  intros -> T. simpl in *. apply negb_true_iff in T. rewrite T. reflexivity.
Qed.

Lemma or_else_falsy (v : option Q) (d : Q) :
  truthy v = false -> JS.or_else v d = d.
Proof.
  destruct v as [x |]; simpl; [| reflexivity].
  intros T. apply negb_false_iff in T. rewrite T. reflexivity.
Qed.

Lemma risk_low_of_zero (x : Q) : x == 0 -> risk_of x = Low.
Proof.
  intros E. apply (risk_of_cases x). rewrite E. discriminate.
Qed.

Lemma quote_unchanged (meta : Meta) :
  truthy (regularMarketPrice meta) = false \/ truthy (previousClose meta) = false ->
  q_change (quote_of meta) == 0 /\ q_changePercent (quote_of meta) == 0.
Proof.
  unfold quote_of. cbv zeta. cbn [q_change q_changePercent].
  set (cur := JS.or_else (regularMarketPrice meta)
                (JS.or_else (previousClose meta) 0)).
  set (prev := JS.or_else (previousClose meta) cur).
  intros H.
  assert (E : cur - prev == 0).
  { destruct (truthy (previousClose meta)) eqn:P.
    - destruct H as [H | H]; [| discriminate].
      unfold prev, cur. rewrite (or_else_falsy _ _ H).
      destruct (previousClose meta) as [c |]; [| discriminate].
      rewrite !(or_else_truthy (Some c) c _ eq_refl P). ring.
    - unfold prev. rewrite (or_else_falsy _ _ P). ring. }
  split; [exact E |].
  destruct (truthy (Some prev)); [| reflexivity].
  rewrite E. unfold Qdiv. ring.
Qed.

(** X17: the day's change never divides by zero and is only reported when
    both prices of the quote are usable: when the previous close the
    quote settles on is zero, the percent is the constant 0 and no
    division takes place; with both regularMarketPrice and previousClose
    present and non-zero the percent is (price - previous) / previous * 100;
    when either is missing or zero, change and percent are 0 and the risk
    level is Low. *)
Theorem quote_change_guarded (meta : Meta) :
  (q_previousClose (quote_of meta) == 0 ->
   q_changePercent (quote_of meta) = 0) /\
  (forall p c,
     regularMarketPrice meta = Some p -> previousClose meta = Some c ->
     ~ p == 0 -> ~ c == 0 ->
     q_currentPrice (quote_of meta) = p /\
     q_previousClose (quote_of meta) = c /\
     q_changePercent (quote_of meta) == (p - c) / c * 100) /\
  (truthy (regularMarketPrice meta) = false \/
   truthy (previousClose meta) = false ->
   q_change (quote_of meta) == 0 /\
   q_changePercent (quote_of meta) == 0 /\
   risk_of (q_changePercent (quote_of meta)) = Low).
Proof.
  split; [| split].
  - unfold quote_of. cbv zeta. cbn [q_changePercent q_previousClose].
    intros Z. apply truthy_some_false in Z. rewrite Z. reflexivity.
  - intros p c Hp Hc Np Nc.
    apply truthy_some in Np. apply truthy_some in Nc.
    unfold quote_of. cbv zeta.
    cbn [q_currentPrice q_changePercent q_previousClose].
    rewrite Hp, Hc.
    rewrite (or_else_truthy (Some p) p _ eq_refl Np).
    rewrite (or_else_truthy (Some c) c _ eq_refl Nc).
    rewrite Nc. repeat split; reflexivity.
  - intros H. destruct (quote_unchanged meta H) as [A B].
    repeat split; [exact A | exact B | apply risk_low_of_zero, B].
Qed.

(** ** The cleaned series *)

Lemma keep_positive_entries (xs : list (option Q)) :
  keep_positive (Some xs) = positive_entries xs.
Proof.
  unfold keep_positive. induction xs as [| v xs IH]; [reflexivity |].
  cbn [flat_map positive_entries]. rewrite IH.
  destruct v as [x |]; [| reflexivity].
  destruct (Qlt_le_dec 0 x) as [P | N].
  - assert (T : truthy (Some x) = true) by (apply truthy_some; lra).
    assert (G : JS.gt x 0 = true) by (apply gt_true; exact P).
    rewrite T, G. reflexivity.
  - assert (G : JS.gt x 0 = false) by (apply gt_false; exact N).
    rewrite G, andb_false_r. reflexivity.
Qed.

Lemma positive_entries_all (xs : list (option Q)) :
  Forall (fun p => 0 < p) (positive_entries xs).
Proof.
  induction xs as [| v xs IH]; [constructor |].
  destruct v as [x |]; cbn [positive_entries]; [| exact IH].
  destruct (Qlt_le_dec 0 x) as [P | N]; [constructor; assumption | exact IH].
Qed.

Lemma positive_entries_clean (l : list Q) :
  Forall (fun p => 0 < p) l -> positive_entries (map Some l) = l.
Proof.
  intros F. induction F as [| x l P F IH]; [reflexivity |].
  cbn [map positive_entries]. rewrite IH.
  destruct (Qlt_le_dec 0 x) as [_ | N]; [reflexivity | lra].
Qed.

Lemma keep_positive_all (raw : option (list (option Q))) :
  Forall (fun p => 0 < p) (keep_positive raw).
Proof.
  destruct raw as [xs |]; [| constructor].
  rewrite keep_positive_entries. apply positive_entries_all.
Qed.

(** X18: whatever the provider sends (a missing array, null entries,
    zeros, negative numbers), the cleaned series is the positive entries
    of the array in their order and as often as they occur (nothing on a
    missing array, the series itself when it is already clean), and the
    Bollinger bands computed from it are in order,
    lower <= middle <= upper, for any square root with non-negative
    results. *)
Theorem cleaned_series_gives_ordered_bands
    (Math_sqrt : Q -> Q) (raw : option (list (option Q))) :
  (forall x, 0 <= Math_sqrt x) ->
  keep_positive None = [] /\
  (forall xs, keep_positive (Some xs) = positive_entries xs) /\
  (forall l, Forall (fun p => 0 < p) l -> keep_positive (Some (map Some l)) = l) /\
  Forall (fun p => 0 < p) (keep_positive raw) /\
  bb_lower (calculateBollingerBands_default Math_sqrt (keep_positive raw))
    <= bb_middle (calculateBollingerBands_default Math_sqrt (keep_positive raw)) /\
  bb_middle (calculateBollingerBands_default Math_sqrt (keep_positive raw))
    <= bb_upper (calculateBollingerBands_default Math_sqrt (keep_positive raw)).
Proof.
  intros SQ. split; [reflexivity |].
  split; [apply keep_positive_entries |].
  split; [intros l F; rewrite keep_positive_entries;
          apply positive_entries_clean, F |].
  pose proof (keep_positive_all raw) as F. split; [exact F |].
  unfold calculateBollingerBands_default.
  apply bollinger_ordered; [exact SQ | discriminate |].
  apply Forall_forall. intros x I.
  apply (proj1 (Forall_forall _ _) F) in I. lra.
Qed.

Lemma cleaned_series_gives_ordered_bands_witness :
  keep_positive (Some [Some 101; None; Some 0; Some (-3); Some 99; Some 101])
    = [101; 99; 101] /\
  bb_lower (calculateBollingerBands_default sqrt_down
              (keep_positive (Some [Some 101; None; Some 0; Some (-3);
                                    Some 99; Some 101])))
  <= bb_middle (calculateBollingerBands_default sqrt_down
              (keep_positive (Some [Some 101; None; Some 0; Some (-3);
                                    Some 99; Some 101]))).
Proof.
  destruct (cleaned_series_gives_ordered_bands sqrt_down
              (Some [Some 101; None; Some 0; Some (-3); Some 99; Some 101])
              sqrt_down_nonneg) as (_ & E & _ & _ & B & _).
  split; [rewrite E; reflexivity | exact B].
Defined.

(** ** Average volume *)

Lemma slice_last_length_min (l : list Q) (n : nat) :
  (1 <= n)%nat -> length (JS.slice_last l n) = Nat.min n (length l).
Proof.
  intros N. unfold JS.slice_last. destruct n; [lia |].
  rewrite length_skipn. lia.
Qed.

Lemma Forall_slice_last (P : Q -> Prop) (l : list Q) (n : nat) :
  Forall P l -> Forall P (JS.slice_last l n).
Proof.
  intros F. unfold JS.slice_last. destruct n; [exact F |].
  generalize (length l - S n)%nat. intros k. revert l F.
  induction k as [| k IH]; intros l F; [exact F |].
  destruct F as [| x l Px F]; [constructor | apply IH, F].
Qed.

Lemma or_else_nonzero (v : option Q) (d : Q) :
  ~ d == 0 -> ~ JS.or_else v d == 0.
Proof.
  intros D. destruct v as [x |]; simpl; [| exact D].
  destruct (Qeq_bool x 0) eqn:E; [exact D | apply Qeq_bool_neq, E].
Qed.

Lemma averageVolume_nonempty (volumes : list Q) (mv : option Q) :
  volumes <> [] ->
  averageVolume volumes mv =
    total (trailing_window volumes 20) / size (trailing_window volumes 20).
Proof.
  intros N. unfold averageVolume, size, trailing_window.
  assert (L : (0 <? length volumes)%nat = true).
  { apply Nat.ltb_lt. destruct volumes; [congruence | simpl; lia]. }
  rewrite L, reduce_sum_total, map_id, length_skipn.
  replace (length volumes - (length volumes - 20))%nat
    with (Nat.min 20 (length volumes)) by lia.
  reflexivity.
Qed.

Lemma sum_from_positive (l : list Q) (a : Q) :
  Forall (fun v => 0 < v) l -> 0 <= a -> l <> [] -> 0 < sum_from a l.
Proof.
  intros F. revert a. induction F as [| x l Px F IH]; intros a A N; [congruence |].
  cbn [sum_from]. destruct l as [| y l'].
  - simpl. lra.
  - apply IH; [lra | discriminate].
Qed.

Lemma slice_last_nonempty (l : list Q) (n : nat) :
  (1 <= n)%nat -> l <> [] -> JS.slice_last l n <> [].
Proof.
  intros N E H. apply (f_equal (@length Q)) in H.
  rewrite slice_last_length_min in H by exact N.
  destruct l; [congruence | simpl in H; lia].
Qed.

Lemma num_pos_of_nonempty (l : list Q) : l <> [] -> 0 < JS.num (length l).
Proof.
  intros N. destruct l; [congruence |].
  pose proof (num_ge_1 (length (q :: l))) as H. simpl length in *.
  assert (1 <= JS.num (S (length l))) by (apply H; lia). lra.
Qed.

(** X19: on volumes that are all positive (as the cleaning leaves them)
    the average volume is never zero, so the volume ratio of the chart is
    never a division by zero: with at least one volume it is positive and
    is the sum of the last 20 volumes (of all of them, when fewer), added
    from the left, over their number; with none it is the quote's volume,
    or 1,000,000 when that is missing or zero. *)
Theorem average_volume_never_zero (volumes : list Q) (marketVolume : option Q) :
  Forall (fun v => 0 < v) volumes ->
  ~ averageVolume volumes marketVolume == 0 /\
  (volumes <> [] ->
   0 < averageVolume volumes marketVolume /\
   length (trailing_window volumes 20) = Nat.min 20 (length volumes) /\
   averageVolume volumes marketVolume
     = total (trailing_window volumes 20)
       / size (trailing_window volumes 20)) /\
  (volumes = [] ->
   averageVolume volumes marketVolume = JS.or_else marketVolume 1000000).
Proof.
  intros F.
  assert (P : volumes <> [] -> 0 < averageVolume volumes marketVolume).
  { intros N. rewrite (averageVolume_nonempty _ _ N).
    pose proof (slice_last_nonempty volumes 20 ltac:(lia) N) as NS.
    pose proof (slice_last_length_min volumes 20 ltac:(lia)) as LS.
    pose proof (Forall_slice_last _ volumes 20 F) as FS.
    change (JS.slice_last volumes 20)
      with (trailing_window volumes 20) in NS, LS, FS.
    apply div_pos; [apply (num_pos_of_nonempty _ NS) |].
    apply sum_from_positive; [exact FS | apply Qle_refl | exact NS]. }
  split; [| split].
  - destruct volumes as [| v vs].
    + simpl. apply or_else_nonzero. discriminate.
    + assert (0 < averageVolume (v :: vs) marketVolume)
        by (apply P; discriminate).
      lra.
  - intros N. split; [apply P, N |]. split.
    + unfold trailing_window. rewrite length_skipn. lia.
    + apply averageVolume_nonempty, N.
  - intros ->. reflexivity.
Qed.

Lemma average_volume_never_zero_witness :
  ~ averageVolume [1200; 800; 1000] None == 0.
Proof.
  apply (average_volume_never_zero [1200; 800; 1000] None).
  repeat constructor.
Defined.

(** ** The 52-week extremes *)

Lemma max_cases (a b : Q) : (JS.max a b = a \/ JS.max a b = b) /\
  a <= JS.max a b /\ b <= JS.max a b.
Proof.
  unfold JS.max. destruct (Qle_bool a b) eqn:E.
  - apply Qle_bool_iff in E. repeat split; auto; lra.
  - assert (b < a) by (apply gt_true; unfold JS.gt; rewrite E; reflexivity).
    repeat split; auto; lra.
Qed.

Lemma min_cases (a b : Q) : (JS.min a b = a \/ JS.min a b = b) /\
  JS.min a b <= a /\ JS.min a b <= b.
Proof.
  unfold JS.min. destruct (Qle_bool a b) eqn:E.
  - apply Qle_bool_iff in E. repeat split; auto; lra.
  - assert (b < a) by (apply gt_true; unfold JS.gt; rewrite E; reflexivity).
    repeat split; auto; lra.
Qed.

Lemma fold_max_spec (rest : list Q) (x : Q) :
  In (fold_left JS.max rest x) (x :: rest) /\
  forall y, In y (x :: rest) -> y <= fold_left JS.max rest x.
Proof.
  revert x. induction rest as [| r rest IH]; intros x.
  - simpl. split; [left; reflexivity |]. intros y [-> | []]. apply Qle_refl.
  - cbn [fold_left]. destruct (IH (JS.max x r)) as [I U].
    destruct (max_cases x r) as (C & A & B). split.
    + destruct I as [I | I]; [| right; right; exact I].
      destruct C as [C | C]; [left | right; left]; congruence.
    + intros y [-> | [-> | Y]].
      * apply Qle_trans with (JS.max y r); [exact A | apply U; left; reflexivity].
      * apply Qle_trans with (JS.max x y); [exact B | apply U; left; reflexivity].
      * apply U. right. exact Y.
Qed.

Lemma fold_min_spec (rest : list Q) (x : Q) :
  In (fold_left JS.min rest x) (x :: rest) /\
  forall y, In y (x :: rest) -> fold_left JS.min rest x <= y.
Proof.
  revert x. induction rest as [| r rest IH]; intros x.
  - simpl. split; [left; reflexivity |]. intros y [-> | []]. apply Qle_refl.
  - cbn [fold_left]. destruct (IH (JS.min x r)) as [I U].
    destruct (min_cases x r) as (C & A & B). split.
    + destruct I as [I | I]; [| right; right; exact I].
      destruct C as [C | C]; [left | right; left]; congruence.
    + intros y [-> | [-> | Y]].
      * apply Qle_trans with (JS.min y r); [apply U; left; reflexivity | exact A].
      * apply Qle_trans with (JS.min x y); [apply U; left; reflexivity | exact B].
      * apply U. right. exact Y.
Qed.

Lemma ext_or_else_nonzero (x d : Q) :
  ~ x == 0 -> Ext.or_else (Ext.Finite x) d = Ext.Finite x.
Proof.
  intros N. simpl. destruct (Qeq_bool x 0) eqn:E; [| reflexivity].
  exfalso. apply N, Qeq_bool_eq, E.
Qed.

(** X20: on closes that are all positive the fallbacks [currentPrice * 1.2]
    and [currentPrice * 0.8] are never used: with no close at all the high
    is minus infinity and the low plus infinity; otherwise the two are
    closes of the last 252 that bound every close of that window, so
    low <= high. *)
Theorem week52_extremes (closes : list Q) (currentPrice : Q) :
  Forall (fun p => 0 < p) closes ->
  (closes = [] ->
   high52Week_of closes currentPrice = Ext.MinusInfinity /\
   low52Week_of closes currentPrice = Ext.PlusInfinity) /\
  (closes <> [] ->
   exists h l,
     high52Week_of closes currentPrice = Ext.Finite h /\
     low52Week_of closes currentPrice = Ext.Finite l /\
     In h (JS.slice_last closes 252) /\ In l (JS.slice_last closes 252) /\
     (forall x, In x (JS.slice_last closes 252) -> l <= x /\ x <= h) /\
     l <= h).
Proof.
  intros F. split.
  - intros ->. split; reflexivity.
  - intros N. unfold high52Week_of, low52Week_of.
    pose proof (slice_last_nonempty closes 252 ltac:(lia) N) as NS.
    pose proof (Forall_slice_last _ closes 252 F) as FS.
    destruct (JS.slice_last closes 252) as [| x rest]; [congruence |].
    destruct (fold_max_spec rest x) as [IH UH].
    destruct (fold_min_spec rest x) as [IL UL].
    exists (fold_left JS.max rest x), (fold_left JS.min rest x).
    unfold Math_max, Math_min.
    assert (PH : 0 < fold_left JS.max rest x)
      by (apply (proj1 (Forall_forall _ _) FS), IH).
    assert (PL : 0 < fold_left JS.min rest x)
      by (apply (proj1 (Forall_forall _ _) FS), IL).
    rewrite !ext_or_else_nonzero by lra.
    repeat split; try assumption.
    + apply UL. assumption.
    + apply UH. assumption.
    + apply UL, IH.
Qed.

Lemma week52_extremes_witness :
  high52Week_of [] 100 = Ext.MinusInfinity /\
  low52Week_of [] 100 = Ext.PlusInfinity.
Proof.
  destruct (week52_extremes [] 100) as [E _]; [constructor |].
  apply E. reflexivity.
Defined.

(** ** The thirty points of the chart *)

Lemma map_nth_seq (l : list Q) (d : Q) :
  map (fun i => nth i l d) (seq 0 (length l)) = l.
Proof.
  apply (nth_ext _ _ d d).
  - rewrite length_map, length_seq. reflexivity.
  - intros n H. rewrite length_map, length_seq in H.
    rewrite (nth_indep _ d ((fun i => nth i l d) 0%nat))
      by (rewrite length_map, length_seq; exact H).
    rewrite (map_nth (fun i => nth i l d)), seq_nth by exact H.
    reflexivity.
Qed.

Lemma map_fst_combine_seq (w : list Q) :
  map fst (combine (seq 0 (length w)) w) = seq 0 (length w).
Proof.
  generalize 0%nat. induction w as [| x w IH]; intros s; [reflexivity |].
  simpl. rewrite IH. reflexivity.
Qed.

Lemma in_combine_seq (w : list Q) (i : nat) (t : Q) :
  In (i, t) (combine (seq 0 (length w)) w) -> (i < length w)%nat.
Proof.
  intros H. apply in_combine_l in H. apply in_seq in H. lia.
Qed.

Lemma from_end_in_range (xs : list Q) (back index : nat) :
  (back <= length xs)%nat -> (index < back)%nat ->
  from_end xs (Z.of_nat back) index
    = Some (nth index (skipn (length xs - back) xs) 0).
Proof.
  intros B I. unfold from_end. cbv zeta.
  assert (N : (Z.of_nat (length xs) - Z.of_nat back + Z.of_nat index
               = Z.of_nat (length xs - back + index))%Z) by lia.
  rewrite N.
  assert (P : (Z.of_nat (length xs - back + index) <? 0)%Z = false)
    by (apply Z.ltb_ge; lia).
  rewrite P, Nat2Z.id, nth_skipn. apply nth_error_nth'. lia.
Qed.

Lemma historicalData_length (toISODate : Q -> string)
    (timestamps closes volumes : list Q) (currentPrice : Q) :
  (length (historicalData_of toISODate timestamps closes volumes currentPrice)
     <= 30)%nat.
Proof.
  unfold historicalData_of. cbv zeta.
  eapply Nat.le_trans; [apply filter_length_le |].
  rewrite length_map, length_combine, length_seq, Nat.min_id.
  rewrite slice_last_length_min by lia. lia.
Qed.

Lemma historicalData_positive (toISODate : Q -> string)
    (timestamps closes volumes : list Q) (currentPrice : Q) :
  Forall (fun item => 0 < hp_price item)
    (historicalData_of toISODate timestamps closes volumes currentPrice).
Proof.
  apply Forall_forall. intros item I. unfold historicalData_of in I.
  apply filter_In in I. destruct I as [_ G]. apply gt_true, G.
Qed.

(** X21: the chart series has at most thirty points and only positive
    prices, whatever the three arrays hold; when there are at least thirty
    timestamps and at least thirty closes, all positive, its prices are
    exactly the last thirty closes, in order. *)
Theorem historical_data_is_last_thirty (toISODate : Q -> string)
    (timestamps closes volumes : list Q) (currentPrice : Q) :
  (length (historicalData_of toISODate timestamps closes volumes currentPrice)
     <= 30)%nat /\
  Forall (fun item => 0 < hp_price item)
    (historicalData_of toISODate timestamps closes volumes currentPrice) /\
  ((30 <= length timestamps)%nat -> (30 <= length closes)%nat ->
   Forall (fun p => 0 < p) closes ->
   map hp_price
     (historicalData_of toISODate timestamps closes volumes currentPrice)
   = JS.slice_last closes 30).
Proof.
  split; [apply historicalData_length |].
  split; [apply historicalData_positive |].
  intros T C F. unfold historicalData_of. cbv zeta.
  assert (W : length (JS.slice_last timestamps 30) = 30%nat)
    by (apply slice_last_length; lia).
  set (window := JS.slice_last timestamps 30) in *.
  set (tail := skipn (length closes - 30) closes).
  assert (LT : length tail = 30%nat) by (unfold tail; rewrite length_skipn; lia).
  assert (FT : Forall (fun p => 0 < p) tail).
  { apply (Forall_slice_last _ closes 30) in F. exact F. }
  set (mk := fun it : nat * Q =>
               let '(index, timestamp) := it in
               mkHistoryPoint (toISODate timestamp)
                 (JS.or_else (from_end closes 30 index) currentPrice)
                 (JS.or_else (from_end volumes 30 index) 0)).
  assert (P : forall it, In it (combine (seq 0 (length window)) window) ->
              hp_price (mk it) = nth (fst it) tail 0 /\ 0 < hp_price (mk it)).
  { intros [i t] I. apply in_combine_seq in I. rewrite W in I.
    unfold mk. cbn [hp_price fst].
    change 30%Z with (Z.of_nat 30).
    rewrite (from_end_in_range closes 30 i C I). fold tail.
    assert (Pos : 0 < nth i tail 0).
    { apply (proj1 (Forall_nth _ tail) FT). lia. }
    assert (E : JS.or_else (Some (nth i tail 0)) currentPrice = nth i tail 0).
    { apply (or_else_truthy _ _ _ eq_refl). apply truthy_some. lra. }
    rewrite E. split; [reflexivity | exact Pos]. }
  rewrite forallb_filter_id.
  - rewrite map_map.
    rewrite (map_ext_in _ (fun it => nth (fst it) tail 0))
      by (intros it I; apply P, I).
    rewrite <- (map_map fst (fun i => nth i tail 0)).
    rewrite map_fst_combine_seq, W.
    change (JS.slice_last closes 30) with tail.
    assert (M : map (fun i => nth i tail 0) (seq 0 30) = tail)
      by (rewrite <- LT; apply map_nth_seq).
    exact M.
  - apply forallb_forall. intros item I. apply in_map_iff in I.
    destruct I as (it & <- & I). apply gt_true, P, I.
Qed.

Lemma historical_data_is_last_thirty_witness :
  map hp_price
    (historicalData_of (fun _ => EmptyString)
       (ramp 1700000000 86400 40) (ramp 100 1 35) [] 134)
  = JS.slice_last (ramp 100 1 35) 30.
Proof.
  apply (historical_data_is_last_thirty (fun _ => EmptyString)
           (ramp 1700000000 86400 40) (ramp 100 1 35) [] 134).
  - simpl. lia.
  - simpl. lia.
  - simpl. repeat constructor.
Defined.

(** * The fallback generator *)

Lemma generateAIAnalysis_state (data : StockInput) (ti : TechnicalIndicators)
    (g : Rng) :
  generateAIAnalysis data ti g
    = (run (generateAIAnalysis data ti) g, fun n => g (S (S n))).
Proof.
  unfold run, generateAIAnalysis, bind, ret, Math_random.
  destruct (scoring data ti) as [s t]. reflexivity.
Qed.

Lemma fallback_history_step (k : nat) (price : Q) (g : Rng) :
  fallback_history (S k) price g =
    (let p' := price + (g 0%nat - 0.5) * price * 0.03 in
     ((cents p', Math_floor (g 1%nat * 10000000) + 1000000)
        :: fst (fallback_history k p' (fun n => g (S (S n)))),
      snd (fallback_history k p' (fun n => g (S (S n)))))).
Proof.
  cbn [fallback_history]. unfold bind, ret, Math_random. cbv zeta.
  destruct (fallback_history k _ _) as [rest g']. reflexivity.
Qed.

Lemma fallback_history_length (n : nat) (price : Q) (g : Rng) :
  length (fst (fallback_history n price g)) = n.
Proof.
  revert price g. induction n as [| k IH]; intros price g; [reflexivity |].
  rewrite fallback_history_step. cbv zeta. cbn [fst length]. rewrite IH.
  reflexivity.
Qed.

Lemma round_monotone (x y : Q) : x <= y -> (JS.round x <= JS.round y)%Z.
Proof. intros H. unfold JS.round. apply Qfloor_resp_le. lra. Qed.

Lemma cents_monotone (x y : Q) : x <= y -> cents x <= cents y.
Proof.
  intros H. unfold cents.
  assert (R : (JS.round (x * 100) <= JS.round (y * 100))%Z)
    by (apply round_monotone; lra).
  rewrite Zle_Qle in R.
  generalize dependent (inject_Z (JS.round (x * 100))). intros a.
  generalize (inject_Z (JS.round (y * 100))). intros b R.
  unfold Qdiv. assert (0 < / 100) by reflexivity. nra.
Qed.

Lemma decay_monotone (n : nat) (x y : Q) : x <= y -> decay n x <= decay n y.
Proof.
  revert x y. induction n as [| k IH]; intros x y H; [exact H |].
  cbn [decay]. apply IH. lra.
Qed.

Lemma decay_below (n : nat) (x : Q) : 0 <= x -> decay n x <= x.
Proof.
  revert x. induction n as [| k IH]; intros x H; [apply Qle_refl |].
  cbn [decay]. apply Qle_trans with (x * 0.985); [apply IH; lra | lra].
Qed.

Lemma fallback_history_floor (n : nat) (price : Q) (g : Rng) (lo : Q) :
  unit_draws g -> 0 <= price -> lo <= decay n price ->
  Forall (fun day : Day => cents lo <= fst day)
         (fst (fallback_history n price g)).
Proof.
  revert price g. induction n as [| k IH]; intros price g U P L.
  - constructor.
  - rewrite fallback_history_step. cbv zeta. cbn [fst].
    destruct (U 0%nat) as [R0 R1].
    assert (S0 : forall r, 0 <= r ->
              price * 0.985 <= price + (r - 0.5) * price * 0.03)
      by (intros r R; nra).
    pose proof (S0 _ R0) as S1.
    set (p' := price + (g 0%nat - 0.5) * price * 0.03) in *.
    assert (P' : 0 <= p') by lra.
    cbn [decay] in L.
    assert (L' : lo <= decay k p').
    { apply Qle_trans with (decay k (price * 0.985)); [exact L |].
      apply decay_monotone, S1. }
    constructor.
    + cbn [fst]. apply cents_monotone.
      apply Qle_trans with (decay k p'); [exact L' | apply decay_below, P'].
    + apply IH; [| exact P' | exact L'].
      intros n. apply U.
Qed.

(** The result of a run, field by field. *)
Lemma generateFallbackStockData_run (Math_sqrt : Q -> Q) (g : Rng) :
  exists g',
    fb_historicalData (run (generateFallbackStockData Math_sqrt) g)
      = fst (fallback_history 30 (100 + g 0%nat * 400) (fun n => g (S (S n)))) /\
    currentPrice (fb_stock (run (generateFallbackStockData Math_sqrt) g))
      = cents (100 + g 0%nat * 400) /\
    changePercent (fb_stock (run (generateFallbackStockData Math_sqrt) g))
      = cents ((g 1%nat - 0.5) * 10 / (100 + g 0%nat * 400) * 100) /\
    (exists vol avgVol,
       fb_technicalIndicators (run (generateFallbackStockData Math_sqrt) g)
         = technicalIndicators_of Math_sqrt
             (map fst (fb_historicalData
                         (run (generateFallbackStockData Math_sqrt) g)))
             vol avgVol) /\
    fb_aiAnalysis (run (generateFallbackStockData Math_sqrt) g)
      = run (generateAIAnalysis
               (fb_stock (run (generateFallbackStockData Math_sqrt) g))
               (fb_technicalIndicators
                  (run (generateFallbackStockData Math_sqrt) g))) g'.
Proof.
  unfold run, generateFallbackStockData, bind, ret, Math_random.
  destruct (fallback_history 30 _ _) as [hist gh]. cbv zeta.
  rewrite generateAIAnalysis_state. cbn [fst snd].
  exists (fun n => gh (S n)).
  cbn [fb_historicalData fb_stock fb_technicalIndicators fb_aiAnalysis
       currentPrice changePercent].
  repeat split. eexists. eexists. reflexivity.
Qed.

Lemma riskLevel_run (data : StockInput) (ti : TechnicalIndicators) (g : Rng) :
  riskLevel (run (generateAIAnalysis data ti) g) = risk_of (changePercent data).
Proof. rewrite generateAIAnalysis_run. reflexivity. Qed.

Lemma fallback_change_percent_range (r0 r1 : Q) :
  0 <= r0 -> 0 <= r1 -> r1 < 1 ->
  - (5) <= (r1 - 0.5) * 10 / (100 + r0 * 400) * 100 /\
  (r1 - 0.5) * 10 / (100 + r0 * 400) * 100 <= 5.
Proof.
  intros A B C. unfold Qdiv.
  assert (I : 0 < / (100 + r0 * 400)) by (apply Qinv_lt_0_compat; nra).
  assert (M : (100 + r0 * 400) * / (100 + r0 * 400) == 1)
    by (apply Qmult_inv_r; nra).
  generalize dependent (/ (100 + r0 * 400)). intros i I M.
  assert (H : 100 * i <= 1) by nra.
  split; nra.
Qed.

Lemma not_high_within_five (x : Q) : - (5) <= x -> x <= 5 -> risk_of x <> High.
Proof.
  intros A B H. apply (risk_of_cases x) in H.
  assert (Qabs x <= 5) by (apply Qabs_Qle_condition; split; assumption).
  lra.
Qed.

(** X22: under any draws in [0, 1) the generated fallback stock has
    exactly thirty days of history, every price of it at least 63, a
    current price between 100 and 500, a risk level that is never High
    (the day's change stays within 5 percent) and, the history being
    shorter than 50 days, a rating that is Sell, Hold or Buy. *)
Theorem fallback_data_shape (Math_sqrt : Q -> Q) (g : Rng) :
  unit_draws g ->
  length (fb_historicalData (run (generateFallbackStockData Math_sqrt) g))
    = 30%nat /\
  Forall (fun day : Day => 63 <= fst day)
    (fb_historicalData (run (generateFallbackStockData Math_sqrt) g)) /\
  (100 <= currentPrice (fb_stock (run (generateFallbackStockData Math_sqrt) g)) /\
   currentPrice (fb_stock (run (generateFallbackStockData Math_sqrt) g)) <= 500) /\
  riskLevel (fb_aiAnalysis (run (generateFallbackStockData Math_sqrt) g))
    <> High /\
  (overallRating (fb_aiAnalysis (run (generateFallbackStockData Math_sqrt) g))
     = Sell
   \/ overallRating (fb_aiAnalysis (run (generateFallbackStockData Math_sqrt) g))
        = Hold
   \/ overallRating (fb_aiAnalysis (run (generateFallbackStockData Math_sqrt) g))
        = Buy).
Proof.
  intros U.
  destruct (generateFallbackStockData_run Math_sqrt g)
    as (g' & H & HP & HC & (vol & avgVol & HT) & HA).
  destruct (U 0%nat) as [A0 B0]. destruct (U 1%nat) as [A1 B1].
  assert (Len : length (fb_historicalData
                          (run (generateFallbackStockData Math_sqrt) g)) = 30%nat)
    by (rewrite H; apply fallback_history_length).
  split; [exact Len |]. split; [| split; [| split]].
  - rewrite H.
    assert (F : Forall (fun day : Day => cents (decay 30 100) <= fst day)
                  (fst (fallback_history 30 (100 + g 0%nat * 400)
                          (fun n => g (S (S n)))))).
    { apply fallback_history_floor.
      - intros n. apply U.
      - nra.
      - apply decay_monotone. nra. }
    assert (B : 63 <= cents (decay 30 100)) by (vm_compute; discriminate).
    eapply Forall_impl; [| exact F]. cbv beta. intros day D. lra.
  - rewrite HP.
    assert (L : 100 <= cents 100) by (vm_compute; discriminate).
    assert (R : cents 500 <= 500) by (vm_compute; discriminate).
    assert (M1 : cents 100 <= cents (100 + g 0%nat * 400))
      by (apply cents_monotone; nra).
    assert (M2 : cents (100 + g 0%nat * 400) <= cents 500)
      by (apply cents_monotone; nra).
    split; lra.
  - rewrite HA, riskLevel_run, HC.
    destruct (fallback_change_percent_range (g 0%nat) (g 1%nat) A0 A1 B1)
      as [C1 C2].
    assert (L : - (5) <= cents (- (5))) by (vm_compute; discriminate).
    assert (R : cents 5 <= 5) by (vm_compute; discriminate).
    pose proof (cents_monotone _ _ C1) as M1.
    pose proof (cents_monotone _ _ C2) as M2.
    apply not_high_within_five; lra.
  - rewrite HA, rating_run, HT. apply short_history_scores.
    rewrite length_map. unfold Day in *. rewrite Len. lia.
Qed.

Lemma fallback_data_shape_witness :
  length (fb_historicalData
            (run (generateFallbackStockData sqrt_down) (fun _ => 0.25)))
    = 30%nat.
Proof.
  apply (fallback_data_shape sqrt_down (fun _ => 0.25)).
  intros n. split; [discriminate | reflexivity].
Defined.

(** * The badges of the indicator cards *)

(** X23: the RSI badge of the chart and the RSI rule of the engine test
    the two thresholds in opposite order and still agree on every RSI:
    the badge reads Oversold exactly when the rule adds 20 (and sets the
    trend bullish), Overbought exactly when it takes 20 off, Neutral
    exactly when it leaves the score at 50. *)
Theorem rsi_badge_matches_rule (r : Q) :
  (signal (getRSISignal r) = "Oversold"%string
     <-> fst (rsi_rule r (50, neutral)) == 70) /\
  (signal (getRSISignal r) = "Oversold"%string
     <-> snd (rsi_rule r (50, neutral)) = bullish) /\
  (signal (getRSISignal r) = "Overbought"%string
     <-> fst (rsi_rule r (50, neutral)) == 30) /\
  (signal (getRSISignal r) = "Neutral"%string
     <-> fst (rsi_rule r (50, neutral)) == 50).
Proof.
  unfold getRSISignal, rsi_rule.
  destruct (JS.gt r 70) eqn:G; destruct (JS.lt r 30) eqn:L; cbn [fst snd signal].
  - apply gt_true in G. apply lt_true in L. lra.
  - repeat split; intros H; try discriminate H; try reflexivity.
  - repeat split; intros H; try discriminate H; try reflexivity.
  - repeat split; intros H; try discriminate H; try reflexivity.
Qed.

(** * The EMA as a running value *)

Lemma fold_left_ext_in {A B : Type} (f g : A -> B -> A) (l : list B) (a : A) :
  (forall x b, In b l -> f x b = g x b) -> fold_left f l a = fold_left g l a.
Proof.
  revert a. induction l as [| b l IH]; intros a H; [reflexivity |].
  cbn [fold_left]. rewrite (H a b) by (left; reflexivity).
  apply IH. intros x b' I. apply H. right. exact I.
Qed.

Lemma at_index_app_left (xs : list Q) (x : Q) (i : nat) :
  (i < length xs)%nat -> JS.at_index (xs ++ [x]) i = JS.at_index xs i.
Proof. intros I. unfold JS.at_index. apply app_nth1, I. Qed.

Lemma at_index_app_last (xs : list Q) (x : Q) :
  JS.at_index (xs ++ [x]) (length xs) = x.
Proof. unfold JS.at_index. apply nth_middle. Qed.

(** X25: the EMA can be kept as a running value: once a series holds at
    least [period] closes (a period of at least 1), the EMA of the series
    with one more close is that close times 2 / (period + 1) plus the
    previous EMA times the rest. *)
Theorem ema_incremental (prices : list Q) (x : Q) (period : nat) :
  (1 <= period <= length prices)%nat ->
  calculateEMA (prices ++ [x]) period
    = x * (2 / (JS.num period + 1))
      + calculateEMA prices period * (1 - 2 / (JS.num period + 1)).
Proof.
  intros [P L]. unfold calculateEMA. rewrite length_app. cbn [length].
  assert (F1 : (length prices + 1 <? period)%nat = false)
    by (apply Nat.ltb_ge; lia).
  assert (F2 : (length prices <? period)%nat = false)
    by (apply Nat.ltb_ge; lia).
  rewrite F1, F2. cbv zeta.
  replace (length prices + 1 - 1)%nat with (length prices - 1 + 1)%nat by lia.
  rewrite seq_app, fold_left_app. cbn [seq fold_left].
  replace (1 + (length prices - 1))%nat with (length prices) by lia.
  unfold ema_step at 1. rewrite at_index_app_last.
  rewrite at_index_app_left by lia.
  rewrite (fold_left_ext_in
             (ema_step (prices ++ [x]) (2 / (JS.num period + 1)))
             (ema_step prices (2 / (JS.num period + 1)))).
  - reflexivity.
  - intros e i I. apply in_seq in I. unfold ema_step.
    rewrite at_index_app_left by lia. reflexivity.
Qed.

Lemma ema_incremental_witness :
  calculateEMA ([10; 20; 30] ++ [40]) 3
    = 40 * (2 / (JS.num 3 + 1))
      + calculateEMA [10; 20; 30] 3 * (1 - 2 / (JS.num 3 + 1)).
Proof. apply (ema_incremental [10; 20; 30] 40 3). simpl. lia. Defined.

(** * Rounding: three evaluations in IEEE doubles *)

(** A rise steep enough swallows the quotient, and the RSI of the doubles
    is exactly 100: of a rising series the statements above claim the
    closed range only. *)
Example double_rsi_steep_ramp :
  Double.calculateRSI (Double.ramp 0 18014398509481984 15) 14 = 100%float.
Proof. vm_compute. reflexivity. Qed.

(** Twenty-six prices of 0.23 (the nearest double): the two EMAs round
    apart and the MACD line is not zero, so nothing is claimed of constant
    series in general. *)
Example double_macd_constant_series_apart :
  PrimFloat.eqb (Double.macdLine (repeat 0x1.d70a3d70a3d71p-3%float 26)) 0
    = false.
Proof. vm_compute. reflexivity. Qed.

(** A flat series has no change at all, rounded or not: RSI 0. *)
Example double_rsi_flat_series :
  Double.calculateRSI (repeat 250%float 20) 14 = 0%float.
Proof. vm_compute. reflexivity. Qed.
